(** * DCSync: the directory-access layer (DCSync/network/LDAP.py)

    A shallow embedding of [DCSync.structures.Target] and of the class
    [DCSync.network.LDAP]: transport negotiation ([__getPort],
    [__tryLDAPS], [__tryLDAP]), the authenticator ([__Authentication],
    [kerberosAuthentication]), the paged search ([search]) and the two
    directory queries built on it ([getNamingContexts], [getAllUsers]).

    The ldap3 library, the Kerberos collaborator and the remote server are
    not part of the program: they are an oracle ([Network]) the program
    calls.  Every call and its reply is appended to a trace ([wire]), so
    that statements about the order and the content of what is sent can be
    made.  Python exceptions, [exit(1)] and the recursion depth of [search]
    are outcomes of a small state-and-error monad. *)

From stdpp Require Import base option list strings gmap pretty.
From Stdlib Require Import ZArith Lia.

Local Open Scope string_scope.
Local Open Scope list_scope.
Local Open Scope Z_scope.

(** ** Python values *)

(** The value of one response control: [ctrl["value"]["cookie"]]. *)
Record ControlValue := mkControlValue { value_cookie : option string }.

(** [ldapConn.result]: a dict; its ["controls"] entry, when present, is a
    dict from control OIDs to control values. *)
Record LdapResult := mkLdapResult {
  res_result : Z;                                     (* result["result"], the LDAP result code *)
  res_description : string;                           (* result["description"] *)
  res_controls : option (gmap string ControlValue)    (* result.get("controls", ...) *)
}.

(** Exceptions that the code raises, catches, or lets through. *)
Inductive Exn :=
| LDAPSocketOpenError
| LDAPSocketReceiveError
| IndexError
| KeyError (key : string)
| TypeError
| AttributeError (name : string)
| UnicodeDecodeError
| Exception_ (response : list LdapResult)   (* [raise Exception(response)] *)
| OtherError (name : string).               (* anything else a collaborator raises *)

(** How a call ends: a value, an exception on its way up, [exit(code)]
    (SystemExit, which [except IndexError] does not catch), or the
    recursion budget of the model used up. *)
Inductive Outcome (A : Type) :=
| Ok (a : A)
| Raise (e : Exn)
| Exit (code : Z)
| OutOfFuel.
Arguments Ok {A} a.
Arguments Raise {A} e.
Arguments Exit {A} code.
Arguments OutOfFuel {A}.

(** Truthiness of the Python values that the code tests. *)
Definition truthy_int (v : option Z) : bool :=
  match v with Some n => negb (n =? 0) | None => false end.

Definition truthy_bool (v : option bool) : bool :=
  match v with Some b => b | None => false end.

Definition truthy_str (v : option string) : bool :=
  match v with Some s => negb (bool_decide (s = "")) | None => false end.

(** [port or default] where [default] is an int. *)
Definition int_or (v : option Z) (default : Z) : Z :=
  match v with
  | Some n => if n =? 0 then default else n
  | None => default
  end.

(** [a or b] on the tri-state flags: [a] when truthy, else [b]. *)
Definition flag_or (a b : option bool) : option bool :=
  if truthy_bool a then a else b.

(** ** DCSync.structures.Target *)

Record Target := mkTarget {
  remote : string;
  port : option Z;
  method_port : option Z;
  tlsv1_2 : option bool;     (* class attribute, None until negotiated *)
  tlsv1 : option bool        (* class attribute, None until negotiated *)
}.

(** [Target.__init__]: the two flags are the class attributes. *)
Definition Target_init (remote : string) (port method_port : option Z) : Target :=
  {| remote := remote; port := port; method_port := method_port;
     tlsv1_2 := None; tlsv1 := None |}.

Definition use_tls (t : Target) : option bool :=
  flag_or (tlsv1_2 t) (tlsv1 t).

(** ** The ssl and ldap3 values the code builds *)

(** Python's [ssl._SSLMethod].  [PROTOCOL_TLSv1] selects TLS 1.0,
    [PROTOCOL_TLSv1_1] TLS 1.1 and [PROTOCOL_TLSv1_2] TLS 1.2. *)
Inductive _SSLMethod :=
| PROTOCOL_TLS
| PROTOCOL_TLS_CLIENT
| PROTOCOL_TLS_SERVER
| PROTOCOL_TLSv1
| PROTOCOL_TLSv1_1
| PROTOCOL_TLSv1_2.

(** The TLS version (major, minor) a method pins, if it pins one. *)
Definition pinned_version (m : _SSLMethod) : option (Z * Z) :=
  match m with
  | PROTOCOL_TLSv1 => Some (1, 0)
  | PROTOCOL_TLSv1_1 => Some (1, 1)
  | PROTOCOL_TLSv1_2 => Some (1, 2)
  | _ => None
  end.

Inductive VerifyMode := CERT_NONE | CERT_OPTIONAL | CERT_REQUIRED.

Record Tls := mkTls {
  tls_validate : VerifyMode;
  tls_version : _SSLMethod;
  tls_ciphers : string
}.

Inductive GetInfo := NONE_ | DSA | SCHEMA | ALL.

Record Server := mkServer {
  srv_host : string;
  srv_use_ssl : option bool;
  srv_port : option Z;
  srv_get_info : GetInfo;
  srv_tls : option Tls
}.

Inductive Authentication_ := ANONYMOUS | SIMPLE | SASL | NTLM.

(** One entry of [ldapConn.response]. *)
Record Entry := mkEntry {
  entry_type : string;                                   (* entry["type"] *)
  entry_attributes : option (gmap string (list string)); (* entry["attributes"] *)
  entry_raw_attributes : option (gmap string (list string))
                                                         (* entry["raw_attributes"], byte strings *)
}.

(** An [ldap3.Connection] object, with the attributes the code reads or
    writes.  A connection that has just been constructed is closed,
    unbound, and has no result. *)
Record Connection := mkConnection {
  conn_server : Server;
  conn_user : option string;
  conn_password : option string;
  conn_authentication : Authentication_;
  conn_version : Z;
  conn_closed : bool;
  conn_bound : bool;
  conn_sasl_in_progress : bool;
  conn_result : option LdapResult;
  conn_response : list Entry
}.

Definition Connection_new (server : Server) (user password : option string)
    (authentication : Authentication_) : Connection :=
  {| conn_server := server; conn_user := user; conn_password := password;
     conn_authentication := authentication; conn_version := 3;
     conn_closed := true; conn_bound := false; conn_sasl_in_progress := false;
     conn_result := None; conn_response := [] |}.

Inductive Scope := BASE | LEVEL | SUBTREE.

(** The keyword arguments of [ldapConn.search]. *)
Record SearchRequest := mkSearchRequest {
  search_base : string;
  search_filter : string;
  search_scope : Scope;
  search_attributes : list string;
  search_controls : list (string * bool * string);
  paged_size : Z;
  paged_cookie : option string
}.

(** [ldap3.operation.bind.bind_operation(version, SASL, user, None, mech, data)]. *)
Record BindRequest := mkBindRequest {
  breq_version : Z;
  breq_authentication : Authentication_;
  breq_name : string;
  breq_mechanism : string;
  breq_credentials : string
}.

(** The arguments of [Kerberos.kerberosLogin]. *)
Record KerberosArgs := mkKerberosArgs {
  krb_target : string;
  krb_user : string;
  krb_password : string;
  krb_domain : string;
  krb_ntlmhash : string;
  krb_aesKey : string;
  krb_kdcHost : string
}.

(** ** DCSync.structures.Credentials *)

(** Modelled from the spec: DCSync/structures/Credentials.py is not among
    the sources.  The record has the attributes that [LDAP] reads: domain,
    username, the secret material, and the two mode selectors.  The method
    [getAuthenticationSecret] is a parameter of the [LDAP] section below. *)
Record Credentials := mkCredentials {
  domain : string;
  username : string;
  password : string;
  ntlmhash : string;
  aesKey : string;
  doKerberos : bool;
  doSimpleBind : bool
}.

(** ** The outside world *)

Definition SaslReply : Type := list LdapResult * option LdapResult.
Definition SearchReply : Type := list Entry * LdapResult.

(** One call into ldap3 or into the Kerberos collaborator, with its reply.
    [inl e] is the exception the call raised. *)
Inductive Event :=
| EvBind (c : Connection) (r : Exn + LdapResult)
    (* [c.bind()]; on return [c.result] is the reply *)
| EvKerberosLogin (a : KerberosArgs) (r : Exn + string)
    (* [Kerberos.kerberosLogin(...)]; the reply is [blob.getData()] *)
| EvOpen (c : Connection) (r : option Exn)
    (* [c.open(read_server_info=False)] *)
| EvSaslBind (c : Connection) (request : BindRequest) (r : Exn + SaslReply)
    (* [c.post_send_single_response(c.send('bindRequest', request, None))];
       the reply is the returned list and [c.result] afterwards *)
| EvSearch (c : Connection) (request : SearchRequest) (r : Exn + SearchReply).
    (* [c.search(...)]; the reply is [c.response] and [c.result] afterwards *)

(** The oracle: what the library calls answer, threading its own state. *)
Record Network (W : Type) := mkNetwork {
  net_bind : Connection -> W -> (Exn + LdapResult) * W;
  net_kerberosLogin : KerberosArgs -> W -> (Exn + string) * W;
  net_open : Connection -> W -> option Exn * W;
  net_sasl : Connection -> BindRequest -> W -> (Exn + SaslReply) * W;
  net_search : Connection -> SearchRequest -> W -> (Exn + SearchReply) * W
}.
Arguments net_bind {W} _ _ _.
Arguments net_kerberosLogin {W} _ _ _.
Arguments net_open {W} _ _ _.
Arguments net_sasl {W} _ _ _ _.
Arguments net_search {W} _ _ _ _.

(** The two [Logger] methods that [LDAP] calls. *)
Inductive Level := DEBUG | ERROR.

(** The [LDAP] object together with everything it can touch: the shared
    [Target], what the logger has printed (oldest first), the calls made so
    far (oldest first), the oracle's state, and the attributes that
    [getNamingContexts] assigns. *)
Record State (W : Type) := mkState {
  target : Target;
  logged : list (Level * string);
  wire : list Event;
  world : W;
  namingContexts : option (list string);
  defaultNamingContext : option string;
  configurationNamingContext : option string;
  schemaNamingContext : option string;
  domainDnsZonesNamingContext : option string;
  forestDnsZonesNamingContext : option string
}.
Arguments mkState {W}.
Arguments target {W} _.
Arguments logged {W} _.
Arguments wire {W} _.
Arguments world {W} _.
Arguments namingContexts {W} _.
Arguments defaultNamingContext {W} _.
Arguments configurationNamingContext {W} _.
Arguments schemaNamingContext {W} _.
Arguments domainDnsZonesNamingContext {W} _.
Arguments forestDnsZonesNamingContext {W} _.

(** The object as [LDAP.__init__] finds it before its two calls. *)
Definition State_init {W} (t : Target) (w : W) : State W :=
  mkState t [] [] w None None None None None None.

Definition set_target {W} (f : Target -> Target) (s : State W) : State W :=
  mkState (f (target s)) (logged s) (wire s) (world s) (namingContexts s)
    (defaultNamingContext s) (configurationNamingContext s)
    (schemaNamingContext s) (domainDnsZonesNamingContext s)
    (forestDnsZonesNamingContext s).

Definition add_log {W} (l : Level) (msg : string) (s : State W) : State W :=
  mkState (target s) (logged s ++ [(l, msg)]) (wire s) (world s)
    (namingContexts s) (defaultNamingContext s) (configurationNamingContext s)
    (schemaNamingContext s) (domainDnsZonesNamingContext s)
    (forestDnsZonesNamingContext s).

(** Record a call and move the oracle on. *)
Definition add_event {W} (ev : Event) (w : W) (s : State W) : State W :=
  mkState (target s) (logged s) (wire s ++ [ev]) w (namingContexts s)
    (defaultNamingContext s) (configurationNamingContext s)
    (schemaNamingContext s) (domainDnsZonesNamingContext s)
    (forestDnsZonesNamingContext s).

(** ** The monad *)

Definition M (W A : Type) : Type := State W -> Outcome A * State W.

Definition ret {W A} (a : A) : M W A := fun s => (Ok a, s).

Definition bind {W A B} (m : M W A) (k : A -> M W B) : M W B :=
  fun s =>
    match m s with
    | (Ok a, s') => k a s'
    | (Raise e, s') => (Raise e, s')
    | (Exit c, s') => (Exit c, s')
    | (OutOfFuel, s') => (OutOfFuel, s')
    end.

Definition raise {W A} (e : Exn) : M W A := fun s => (Raise e, s).

(** [exit(code)] *)
Definition exit {W A} (code : Z) : M W A := fun s => (Exit code, s).

Definition gets {W A} (f : State W -> A) : M W A := fun s => (Ok (f s), s).

Definition modify {W} (f : State W -> State W) : M W unit :=
  fun s => (Ok tt, f s).

Declare Scope py_scope.
Delimit Scope py_scope with py.
Notation "x <- m ;; k" := (bind m (fun x => k))
  (at level 100, m at next level, right associativity) : py_scope.
Notation "m ;; k" := (bind m (fun _ => k))
  (at level 100, right associativity) : py_scope.
Local Open Scope py_scope.

(** Subscripting: [l[i]] on a list, [d[k]] on a dict, [x[...]] on None. *)
Definition list_get {W A} (l : list A) (i : nat) : M W A :=
  match l !! i with
  | Some a => ret a
  | None => raise IndexError
  end.

Definition dict_get {W A} (d : gmap string A) (k : string) : M W A :=
  match d !! k with
  | Some a => ret a
  | None => raise (KeyError k)
  end.

Definition logger_error {W} (msg : string) : M W unit := modify (add_log ERROR msg).
Definition logger_debug {W} (msg : string) : M W unit := modify (add_log DEBUG msg).

(** [try: m  except ...:], the handler choosing by the exception raised;
    [None] lets it through. *)
Definition try_catch {W A} (m : M W A) (h : Exn -> option (M W A)) : M W A :=
  fun s =>
    match m s with
    | (Raise e, s') =>
        match h e with
        | Some k => k s'
        | None => (Raise e, s')
        end
    | r => r
    end.

(** Attribute assignments on the shared [Target]. *)
Definition set_method_port (p : option Z) (t : Target) : Target :=
  mkTarget (remote t) (port t) p (tlsv1_2 t) (tlsv1 t).
Definition set_tlsv1_2 (b : option bool) (t : Target) : Target :=
  mkTarget (remote t) (port t) (method_port t) b (tlsv1 t).
Definition set_tlsv1 (b : option bool) (t : Target) : Target :=
  mkTarget (remote t) (port t) (method_port t) (tlsv1_2 t) b.

(** Attribute assignments on a connection. *)
Definition set_result (r : option LdapResult) (c : Connection) : Connection :=
  mkConnection (conn_server c) (conn_user c) (conn_password c)
    (conn_authentication c) (conn_version c) (conn_closed c) (conn_bound c)
    (conn_sasl_in_progress c) r (conn_response c).
Definition set_response (l : list Entry) (c : Connection) : Connection :=
  mkConnection (conn_server c) (conn_user c) (conn_password c)
    (conn_authentication c) (conn_version c) (conn_closed c) (conn_bound c)
    (conn_sasl_in_progress c) (conn_result c) l.
Definition set_closed (b : bool) (c : Connection) : Connection :=
  mkConnection (conn_server c) (conn_user c) (conn_password c)
    (conn_authentication c) (conn_version c) b (conn_bound c)
    (conn_sasl_in_progress c) (conn_result c) (conn_response c).
Definition set_bound (b : bool) (c : Connection) : Connection :=
  mkConnection (conn_server c) (conn_user c) (conn_password c)
    (conn_authentication c) (conn_version c) (conn_closed c) b
    (conn_sasl_in_progress c) (conn_result c) (conn_response c).
Definition set_sasl_in_progress (b : bool) (c : Connection) : Connection :=
  mkConnection (conn_server c) (conn_user c) (conn_password c)
    (conn_authentication c) (conn_version c) (conn_closed c) (conn_bound c)
    b (conn_result c) (conn_response c).

(** The security-descriptor control of [search]:
    ["%c%c%c%c%c" % (48, 3, 2, 1, 7)]. *)
Definition chr (n : N) : string := String (Ascii.ascii_of_N n) EmptyString.

Definition sd_flags_value : string :=
  chr 48 +:+ chr 3 +:+ chr 2 +:+ chr 1 +:+ chr 7.

Definition sd_flags_control : string * bool * string :=
  ("1.2.840.113556.1.4.801", true, sd_flags_value).

Definition paged_results_oid : string := "1.2.840.113556.1.4.319".

(** Modelled from the spec: the module DCSync/structures/sAMAccountType.py is
    not among the sources; the spec gives the two codes that [getAllUsers]
    formats into its filter, the normal-user-account code and the
    machine-account code. *)
Definition SAM_NORMAL_USER_ACCOUNT : Z := 805306368.
Definition SAM_MACHINE_ACCOUNT : Z := 805306369.

(** [bytes.decode()]: strict UTF-8.  A Python [str] is represented by its
    UTF-8 encoding, so decoding checks that the bytes are well-formed UTF-8
    (no overlong forms, no surrogates, nothing above U+10FFFF) and keeps
    them. *)
Definition in_range (lo hi b : N) : bool := ((lo <=? b) && (b <=? hi))%N.

Fixpoint utf8_wf (bs : list N) : bool :=
  match bs with
  | [] => true
  | b0 :: r0 =>
      if (b0 <=? 127)%N then utf8_wf r0
      else
        match r0 with
        | [] => false
        | b1 :: r1 =>
            if in_range 194 223 b0 then
              in_range 128 191 b1 && utf8_wf r1
            else
              match r1 with
              | [] => false
              | b2 :: r2 =>
                  if in_range 224 239 b0 then
                    (if (b0 =? 224)%N then in_range 160 191 b1
                     else if (b0 =? 237)%N then in_range 128 159 b1
                     else in_range 128 191 b1)
                    && in_range 128 191 b2 && utf8_wf r2
                  else
                    match r2 with
                    | [] => false
                    | b3 :: r3 =>
                        in_range 240 244 b0
                        && (if (b0 =? 240)%N then in_range 144 191 b1
                            else if (b0 =? 244)%N then in_range 128 143 b1
                            else in_range 128 191 b1)
                        && in_range 128 191 b2 && in_range 128 191 b3
                        && utf8_wf r3
                    end
              end
        end
  end.

Definition bytes_of (s : string) : list N :=
  Ascii.N_of_ascii <$> String.list_ascii_of_string s.

Definition decode {W} (raw : string) : M W string :=
  if utf8_wf (bytes_of raw) then ret raw
  else raise UnicodeDecodeError.

(** ** DCSync.network.LDAP *)

Section LDAP.
Context {W : Type}.
Variable net : Network W.
Variable credentials : Credentials.
(** [Credentials.getAuthenticationSecret], defined outside this module. *)
Variable getAuthenticationSecret : Credentials -> string.

(** *** Calls into ldap3 and the Kerberos collaborator *)

(** [ldapConn.bind()]: it raises, or returns with the bind result in
    [ldapConn.result], the one attribute this module reads after it. *)
Definition Connection_bind (c : Connection) : M W Connection :=
  fun s =>
    let '(r, w) := net_bind net c (world s) in
    let s' := add_event (EvBind c r) w s in
    match r with
    | inl e => (Raise e, s')
    | inr res => (Ok (set_result (Some res) c), s')
    end.

(** [Kerberos.kerberosLogin(...)], then [blob.getData()] *)
Definition Kerberos_kerberosLogin (a : KerberosArgs) : M W string :=
  fun s =>
    let '(r, w) := net_kerberosLogin net a (world s) in
    let s' := add_event (EvKerberosLogin a r) w s in
    match r with
    | inl e => (Raise e, s')
    | inr blob => (Ok blob, s')
    end.

(** [ldapConn.open(read_server_info=False)] *)
Definition Connection_open (c : Connection) : M W Connection :=
  fun s =>
    let '(r, w) := net_open net c (world s) in
    let s' := add_event (EvOpen c r) w s in
    match r with
    | Some e => (Raise e, s')
    | None => (Ok (set_closed false c), s')
    end.

(** [ldapConn.post_send_single_response(ldapConn.send('bindRequest', request, None))] *)
Definition Connection_send_bindRequest (c : Connection) (request : BindRequest)
    : M W (list LdapResult * Connection) :=
  fun s =>
    let '(r, w) := net_sasl net c request (world s) in
    let s' := add_event (EvSaslBind c request r) w s in
    match r with
    | inl e => (Raise e, s')
    | inr (response, result) => (Ok (response, set_result result c), s')
    end.

(** [ldapConn.search(...)] *)
Definition Connection_search (c : Connection) (request : SearchRequest)
    : M W Connection :=
  fun s =>
    let '(r, w) := net_search net c request (world s) in
    let s' := add_event (EvSearch c request r) w s in
    match r with
    | inl e => (Raise e, s')
    | inr (response, result) =>
        (Ok (set_response response (set_result (Some result) c)), s')
    end.

(** *** Transport negotiation *)

Definition tryLDAPS (proto : _SSLMethod) (port : option Z)
    : M W (option Z * option bool) :=
  let port := int_or port 636 in
  let ldapTls := mkTls CERT_NONE proto "ALL:@SECLEVEL=0" in
  t <- gets target;;
  let ldapServer := mkServer (remote t) (Some true) (Some port) ALL (Some ldapTls) in
  let ldapConn := Connection_new ldapServer None None ANONYMOUS in
  try_catch
    (Connection_bind ldapConn;;
     ret (Some port, Some true))
    (fun e =>
       match e with
       | LDAPSocketOpenError => Some (ret (None, None))
       | LDAPSocketReceiveError => Some (ret (Some port, Some true))
       | _ => None
       end).

Definition tryLDAP (port : option Z) : M W (option Z) :=
  logger_debug "LDAPS failed, trying with LDAP.";;
  let port := int_or port 389 in
  t <- gets target;;
  let ldapServer := mkServer (remote t) (Some false) (Some port) ALL None in
  let ldapConn := Connection_new ldapServer None None ANONYMOUS in
  try_catch
    (Connection_bind ldapConn;;
     ret (Some port))
    (fun e =>
       match e with
       | LDAPSocketOpenError => Some (ret None)
       | LDAPSocketReceiveError => Some (ret (Some port))
       | _ => None
       end).

Definition getPort : M W unit :=
  t <- gets target;;
  if truthy_int (method_port t) then ret tt
  else
    r <- tryLDAPS PROTOCOL_TLSv1_2 (method_port t);;
    modify (set_target (set_method_port r.1));;
    modify (set_target (set_tlsv1_2 r.2));;
    t <- gets target;;
    match tlsv1_2 t with
    | None =>
        r <- tryLDAPS PROTOCOL_TLSv1 (method_port t);;
        modify (set_target (set_method_port r.1));;
        modify (set_target (set_tlsv1 r.2));;
        t <- gets target;;
        match tlsv1 t with
        | None =>
            p <- tryLDAP (method_port t);;
            modify (set_target (set_method_port p))
        | Some _ => ret tt
        end
    | Some _ => ret tt
    end;;
    t <- gets target;;
    match method_port t with
    | None =>
        logger_error ("Impossible to communicate with the target "
                      +:+ remote t +:+ " !");;
        exit 1
    | Some _ => ret tt
    end.

(** *** Authentication *)

Definition kerberosAuthentication (ldapConn : Connection) : M W Connection :=
  t <- gets target;;
  blob <- Kerberos_kerberosLogin
            (mkKerberosArgs (remote t) (username credentials)
               (password credentials) (domain credentials)
               (ntlmhash credentials) (aesKey credentials) (remote t));;
  let request :=
    mkBindRequest (conn_version ldapConn) SASL (username credentials)
      "GSS-SPNEGO" blob in
  ldapConn <- (if conn_closed ldapConn then Connection_open ldapConn
               else ret ldapConn);;
  let ldapConn := set_sasl_in_progress true ldapConn in
  r <- Connection_send_bindRequest ldapConn request;;
  let response := r.1 in
  let ldapConn := set_sasl_in_progress false r.2 in
  first <- list_get response 0;;
  if negb (res_result first =? 0) then raise (Exception_ response)
  else ret (set_bound true ldapConn).

Definition Authentication : M W Connection :=
  let user := domain credentials +:+ "\" +:+ username credentials in
  t <- gets target;;
  let ldapTls :=
    if truthy_bool (tlsv1_2 t) then
      Some (mkTls CERT_NONE PROTOCOL_TLSv1_2 "ALL:@SECLEVEL=0")
    else if truthy_bool (tlsv1 t) then
      Some (mkTls CERT_NONE PROTOCOL_TLSv1 "ALL:@SECLEVEL=0")
    else None in
  let ldapServer :=
    mkServer (remote t) (use_tls t) (method_port t) ALL ldapTls in
  ldapConn <-
    (if doKerberos credentials then
       kerberosAuthentication (Connection_new ldapServer None None ANONYMOUS)
     else if doSimpleBind credentials then
       Connection_bind
         (Connection_new ldapServer (Some user)
            (Some (getAuthenticationSecret credentials)) SIMPLE)
     else
       try_catch
         (Connection_bind
            (Connection_new ldapServer (Some user)
               (Some (getAuthenticationSecret credentials)) NTLM))
         (fun e =>
            match e with
            | LDAPSocketReceiveError =>
                Some (logger_error "Can't connect using NTLM, try with -simple-bind option";;
                      exit 1)
            | _ => None
            end));;
  match conn_result ldapConn with
  | None => raise TypeError
  | Some result =>
      if bool_decide (res_description result = "invalidCredentials") then
        logger_error "Invalid credentials !";;
        exit 1
      else ret ldapConn
  end.

(** *** Paged search *)

(** [search] calls itself once per continuation page.  [fuel] is the depth
    allowed to that recursion; in Python it is the interpreter's recursion
    limit, past which the call fails with RecursionError.  [OutOfFuel] marks
    a run cut short by the depth allowed, and the properties below are
    about runs that end otherwise: with a value, an exception or an exit. *)
Fixpoint search (fuel : nat) (dn filter : string) (scope : Scope)
    (attributes : list string) (cookie : option string)
    : M W (list Entry) :=
  match fuel with
  | O => fun s => (OutOfFuel, s)
  | S fuel =>
      let entries : list Entry := [] in
      ldapConn <- Authentication;;
      ldapConn <- Connection_search ldapConn
                    {| search_base := dn;
                       search_filter := filter;
                       search_scope := scope;
                       search_attributes := attributes;
                       search_controls := [sd_flags_control];
                       paged_size := 5000;
                       paged_cookie := cookie |};;
      let entries := entries ++ conn_response ldapConn in
      result <- match conn_result ldapConn with
                | Some result => ret result
                | None => raise (AttributeError "get")
                end;;
      cookie <- match res_controls result with
                | Some controls =>
                    if bool_decide (controls = ∅) then ret None
                    else
                      c <- dict_get controls paged_results_oid;;
                      ret (value_cookie c)
                | None => ret None
                end;;
      if truthy_str cookie then
        rest <- search fuel dn filter scope attributes cookie;;
        ret (entries ++ rest)
      else ret entries
  end.

(** *** Directory queries *)

(** The loop of [__getSAMAccountName], with the list built so far. *)
Fixpoint getSAMAccountName_loop (response : list Entry)
    (sAMAccountList : list string) : M W (list string) :=
  match response with
  | [] => ret sAMAccountList
  | entry :: response =>
      if bool_decide (entry_type entry ≠ "searchResEntry") then
        getSAMAccountName_loop response sAMAccountList
      else
        raw <- match entry_raw_attributes entry with
               | Some raw => ret raw
               | None => raise (KeyError "raw_attributes")
               end;;
        values <- dict_get raw "sAMAccountName";;
        value <- list_get values 0;;
        name <- decode value;;
        getSAMAccountName_loop response (sAMAccountList ++ [name])
  end.

Definition getSAMAccountName (response : list Entry) : M W (list string) :=
  getSAMAccountName_loop response [].

Definition set_namingContexts (v : list string) (s : State W) : State W :=
  mkState (target s) (logged s) (wire s) (world s) (Some v)
    (defaultNamingContext s) (configurationNamingContext s)
    (schemaNamingContext s) (domainDnsZonesNamingContext s)
    (forestDnsZonesNamingContext s).
Definition set_defaultNamingContext (v : string) (s : State W) : State W :=
  mkState (target s) (logged s) (wire s) (world s) (namingContexts s)
    (Some v) (configurationNamingContext s)
    (schemaNamingContext s) (domainDnsZonesNamingContext s)
    (forestDnsZonesNamingContext s).
Definition set_configurationNamingContext (v : string) (s : State W) : State W :=
  mkState (target s) (logged s) (wire s) (world s) (namingContexts s)
    (defaultNamingContext s) (Some v)
    (schemaNamingContext s) (domainDnsZonesNamingContext s)
    (forestDnsZonesNamingContext s).
Definition set_schemaNamingContext (v : string) (s : State W) : State W :=
  mkState (target s) (logged s) (wire s) (world s) (namingContexts s)
    (defaultNamingContext s) (configurationNamingContext s)
    (Some v) (domainDnsZonesNamingContext s)
    (forestDnsZonesNamingContext s).
Definition set_domainDnsZonesNamingContext (v : string) (s : State W) : State W :=
  mkState (target s) (logged s) (wire s) (world s) (namingContexts s)
    (defaultNamingContext s) (configurationNamingContext s)
    (schemaNamingContext s) (Some v)
    (forestDnsZonesNamingContext s).
Definition set_forestDnsZonesNamingContext (v : string) (s : State W) : State W :=
  mkState (target s) (logged s) (wire s) (world s) (namingContexts s)
    (defaultNamingContext s) (configurationNamingContext s)
    (schemaNamingContext s) (domainDnsZonesNamingContext s)
    (Some v).

Definition getNamingContexts (fuel : nat) : M W unit :=
  response <- search fuel "" "(objectClass=*)" BASE ["namingContexts"] None;;
  first <- list_get response 0;;
  attributes <- match entry_attributes first with
                | Some attributes => ret attributes
                | None => raise (KeyError "attributes")
                end;;
  values <- dict_get attributes "namingContexts";;
  modify (set_namingContexts values);;
  v <- list_get values 0;; modify (set_defaultNamingContext v);;
  v <- list_get values 1;; modify (set_configurationNamingContext v);;
  v <- list_get values 2;; modify (set_schemaNamingContext v);;
  v <- list_get values 3;; modify (set_domainDnsZonesNamingContext v);;
  v <- list_get values 4;; modify (set_forestDnsZonesNamingContext v).

Definition users_filter : string :=
  "(|(sAMAccountType=" +:+ pretty SAM_NORMAL_USER_ACCOUNT
    +:+ ")(sAMAccountType=" +:+ pretty SAM_MACHINE_ACCOUNT +:+ "))".

Definition getAllUsers (fuel : nat) : M W (list string) :=
  base <- gets defaultNamingContext;;
  base <- match base with
          | Some base => ret base
          | None => raise (AttributeError "defaultNamingContext")
          end;;
  response <- search fuel base users_filter SUBTREE ["sAMAccountName"] None;;
  getSAMAccountName response.

Definition checkAuthentication (fuel : nat) : M W unit :=
  t <- gets target;;
  p <- match method_port t with
       | Some p => ret p
       | None => raise TypeError
       end;;
  logger_debug ("Trying to connect to " +:+ remote t +:+ ":" +:+ pretty p);;
  Authentication;;
  try_catch (getNamingContexts fuel)
    (fun e =>
       match e with
       | IndexError => Some (logger_error "Invalid credentials !";; exit 1)
       | _ => None
       end);;
  logger_debug "Authentication success !".

(** [LDAP.__init__] *)
Definition LDAP_init (fuel : nat) : M W unit :=
  getPort;;
  checkAuthentication fuel.

End LDAP.

(** ** A scripted server, for running the program

    The oracle state is the list of replies still to come; each call takes
    the next one, and a call of the wrong kind gets an exception. *)
Inductive Reply :=
| RBind (r : Exn + LdapResult)
| RKerberosLogin (r : Exn + string)
| ROpen (r : option Exn)
| RSasl (r : Exn + SaslReply)
| RSearch (r : Exn + SearchReply).

Definition off_script : Exn := OtherError "off script".

Definition scripted : Network (list Reply) :=
  {| net_bind _ w :=
       match w with
       | RBind r :: w' => (r, w')
       | _ => (inl off_script, w)
       end;
     net_kerberosLogin _ w :=
       match w with
       | RKerberosLogin r :: w' => (r, w')
       | _ => (inl off_script, w)
       end;
     net_open _ w :=
       match w with
       | ROpen r :: w' => (r, w')
       | _ => (Some off_script, w)
       end;
     net_sasl _ _ w :=
       match w with
       | RSasl r :: w' => (r, w')
       | _ => (inl off_script, w)
       end;
     net_search _ _ w :=
       match w with
       | RSearch r :: w' => (r, w')
       | _ => (inl off_script, w)
       end |}.

(** Sample values used to run the program. *)
Definition success : LdapResult := mkLdapResult 0 "success" None.
Definition invalidCredentials : LdapResult := mkLdapResult 49 "invalidCredentials" None.

Definition with_cookie (cookie : option string) : LdapResult :=
  mkLdapResult 0 "success" (Some {[ paged_results_oid := mkControlValue cookie ]}).

Definition alice : Credentials :=
  mkCredentials "CORP" "alice" "hunter2" "" "" false false.
Definition alice_simple : Credentials :=
  mkCredentials "CORP" "alice" "hunter2" "" "" false true.
Definition alice_kerberos : Credentials :=
  mkCredentials "CORP" "alice" "hunter2" "" "" true false.

Definition secret_of (c : Credentials) : string := password c.

Definition dc01 : Target := Target_init "dc01.corp.local" None None.
Definition dc01_on (p : Z) : Target := Target_init "dc01.corp.local" None (Some p).

(** ** Vocabulary of the properties *)

(** The anonymous connections that negotiation binds. *)
Definition tls_probe (host : string) (proto : _SSLMethod) (p : Z) : Connection :=
  Connection_new
    (mkServer host (Some true) (Some p) ALL
       (Some (mkTls CERT_NONE proto "ALL:@SECLEVEL=0")))
    None None ANONYMOUS.

Definition plain_probe (host : string) (p : Z) : Connection :=
  Connection_new (mkServer host (Some false) (Some p) ALL None)
    None None ANONYMOUS.

(** The three transport candidates, in the order [__getPort] tries them. *)
Definition candidates (host : string) : list Connection :=
  [tls_probe host PROTOCOL_TLSv1_2 636;
   tls_probe host PROTOCOL_TLSv1 636;
   plain_probe host 389].

(** The same list with TLS 1.1 as the legacy version. *)
Definition candidates_tls11 (host : string) : list Connection :=
  [tls_probe host PROTOCOL_TLSv1_2 636;
   tls_probe host PROTOCOL_TLSv1_1 636;
   plain_probe host 389].

(** A candidate is usable when its bind returned, or failed only while
    reading the response. *)
Definition usable (r : Exn + LdapResult) : bool :=
  match r with
  | inr _ => true
  | inl LDAPSocketReceiveError => true
  | inl _ => false
  end.

(** Trying a list of candidates in order: a handshake failure moves on to
    the next candidate, any other reply ends the attempts. *)
Inductive fallback : list Connection -> list Event -> Prop :=
| fallback_exhausted : fallback [] []
| fallback_last c cs r :
    r <> inl LDAPSocketOpenError -> fallback (c :: cs) [EvBind c r]
| fallback_next c cs evs :
    fallback cs evs ->
    fallback (c :: cs) (EvBind c (inl LDAPSocketOpenError) :: evs).

(** Negotiation from a target without a port walks the given candidates. *)
Definition negotiates_over (cands : string -> list Connection) : Prop :=
  forall (W : Type) (net : Network W) (st : State W),
    truthy_int (method_port (target st)) = false ->
    exists evs,
      wire (getPort net st).2 = wire st ++ evs
      /\ fallback (cands (remote (target st))) evs.

(** Running a computation against the scripted server. *)
Definition run {A} (m : M (list Reply) A) (t : Target) (script : list Reply)
    : Outcome A * State (list Reply) :=
  m (State_init t script).

(** The calls made between two states of a run. *)
Definition new_events {W} (st st' : State W) : list Event :=
  drop (length (wire st)) (wire st').

Definition is_search (ev : Event) : bool :=
  match ev with EvSearch _ _ _ => true | _ => false end.

(** The connection a call is made on. *)
Definition event_connection (ev : Event) : option Connection :=
  match ev with
  | EvBind c _ | EvOpen c _ | EvSaslBind c _ _ | EvSearch c _ _ => Some c
  | EvKerberosLogin _ _ => None
  end.

(** The exception a call raised, if it raised one. *)
Definition event_exception (ev : Event) : option Exn :=
  match ev with
  | EvBind _ (inl e) | EvKerberosLogin _ (inl e) | EvOpen _ (Some e)
  | EvSaslBind _ _ (inl e) | EvSearch _ _ (inl e) => Some e
  | _ => None
  end.

(** The bind result a call left in [ldapConn.result], for the calls that
    complete a bind exchange. *)
Definition bind_reply (ev : Event) : option LdapResult :=
  match ev with
  | EvBind _ (inr r) => Some r
  | EvSaslBind _ _ (inr (_, r)) => r
  | _ => None
  end.

(** The list that the raw SASL bind exchange returned. *)
Definition sasl_response (ev : Event) : option (list LdapResult) :=
  match ev with
  | EvSaslBind _ _ (inr (response, _)) => Some response
  | _ => None
  end.

(** What [__Authentication] builds from the target and the credentials. *)
Definition ldapTls_of (t : Target) : option Tls :=
  if truthy_bool (tlsv1_2 t) then
    Some (mkTls CERT_NONE PROTOCOL_TLSv1_2 "ALL:@SECLEVEL=0")
  else if truthy_bool (tlsv1 t) then
    Some (mkTls CERT_NONE PROTOCOL_TLSv1 "ALL:@SECLEVEL=0")
  else None.

Definition server_of (t : Target) : Server :=
  mkServer (remote t) (use_tls t) (method_port t) ALL (ldapTls_of t).

Definition user_of (c : Credentials) : string :=
  domain c +:+ "\" +:+ username c.

Definition kerberos_args (c : Credentials) (t : Target) : KerberosArgs :=
  mkKerberosArgs (remote t) (username c) (password c) (domain c)
    (ntlmhash c) (aesKey c) (remote t).

(** The two fatal reports of the authenticator. *)
Definition msg_invalid_credentials : string := "Invalid credentials !".
Definition msg_ntlm_rejected : string :=
  "Can't connect using NTLM, try with -simple-bind option".

(** A run ended in [exit(1)] right after logging [msg] as an error. *)
Definition fatal {W A} (msg : string) (st : State W)
    (fin : Outcome A * State W) : Prop :=
  fin.1 = Exit 1 /\ logged fin.2 = logged st ++ [(ERROR, msg)].

(** A connection made without encryption on port [p]. *)
Definition plaintext_on (p : Z) (c : Connection) : Prop :=
  truthy_bool (srv_use_ssl (conn_server c)) = false
  /\ srv_tls (conn_server c) = None
  /\ srv_port (conn_server c) = Some p.

(** Substring test, for what a message mentions. *)
Fixpoint mentions (needle s : string) : bool :=
  String.prefix needle s
  || match s with
     | EmptyString => false
     | String _ s' => mentions needle s'
     end.

(** The tail of [__Authentication]: the inspection of the bind result. *)
Definition inspect_result {W} (c : Connection) (st : State W)
    : Outcome Connection * State W :=
  match conn_result c with
  | None => (Raise TypeError, st)
  | Some result =>
      if bool_decide (res_description result = "invalidCredentials") then
        (Exit 1, add_log ERROR msg_invalid_credentials st)
      else (Ok c, st)
  end.

(** What an invocation that cannot get past a bind result described as
    invalidCredentials does, where [ev] is the call that completed the
    bind: no search request has been sent, and
    - after [bind()] (simple bind, NTLM) it is the fatal "Invalid
      credentials !";
    - after the raw SASL bind of Kerberos it is the same when the first
      response element has result code 0, [Exception(response)] when that
      code is not 0, and IndexError when the response list is empty. *)
Definition invalid_credentials_verdict {W A} (st : State W) (ev : Event)
    (fin : Outcome A * State W) : Prop :=
  Forall (fun e => is_search e = false) (new_events st fin.2)
  /\ match sasl_response ev with
     | None => fatal msg_invalid_credentials st fin
     | Some [] => fin.1 = Raise IndexError /\ logged fin.2 = logged st
     | Some (first :: rest) =>
         if res_result first =? 0 then fatal msg_invalid_credentials st fin
         else fin.1 = Raise (Exception_ (first :: rest))
              /\ logged fin.2 = logged st
     end.

(** The claim for one choice of credentials: whenever a bind completes and
    its result is described as invalidCredentials, authentication ends in
    the fatal "Invalid credentials !". *)
Definition rejects_invalid_credentials (creds : Credentials) : Prop :=
  forall (W : Type) (net : Network W) (secret : Credentials -> string)
         (st : State W) (ev : Event) (res : LdapResult),
    let fin := Authentication net creds secret st in
    ev ∈ new_events st fin.2 ->
    bind_reply ev = Some res ->
    res_description res = "invalidCredentials" ->
    fatal msg_invalid_credentials st fin.

(** An outcome that is not a value, at another type. *)
Definition propagate {A B} (o : Outcome A) : Outcome B :=
  match o with
  | Ok _ => OutOfFuel
  | Raise e => Raise e
  | Exit c => Exit c
  | OutOfFuel => OutOfFuel
  end.

(** The continuation cookie that [search] reads from a result: none when
    the result has no controls or an empty controls dict, else the cookie
    of the paged-results control (KeyError when that control is absent). *)
Definition next_cookie (result : LdapResult) : Exn + option string :=
  match res_controls result with
  | Some controls =>
      if bool_decide (controls = ∅) then inr None
      else
        match controls !! paged_results_oid with
        | Some c => inr (value_cookie c)
        | None => inl (KeyError paged_results_oid)
        end
  | None => inr None
  end.

(** DER encoding of short values, and the value of the security-descriptor
    control, [SDFlagsRequestValue ::= SEQUENCE { Flags INTEGER }]. *)
Definition der (tag : N) (contents : string) : string :=
  chr tag +:+ chr (N.of_nat (String.length contents)) +:+ contents.

Definition der_small_integer (n : N) : string := der 2 (chr n).
Definition der_sequence (contents : string) : string := der 48 contents.

Definition SDFlagsRequestValue (flags : N) : string :=
  der_sequence (der_small_integer flags).


(** The events [auth] end with a bind completed on a connection that had
    never been bound, and [c] is that connection with the bind's result. *)
Definition authenticated_by (auth : list Event) (c : Connection) : Prop :=
  exists ev c0 res,
    last auth = Some ev
    /\ event_connection ev = Some c0
    /\ conn_result c0 = None
    /\ bind_reply ev = Some res
    /\ conn_result c = Some res
    /\ conn_server c0 = conn_server c.

(** The cookie with which a reply makes [search] go on to another page:
    the cookie that [search] reads from the result, when it is not empty. *)
Definition continuation (r : Exn + SearchReply) : option string :=
  match r with
  | inr (_, result) =>
      match next_cookie result with
      | inr (Some cookie) =>
          if bool_decide (cookie = "") then None else Some cookie
      | _ => None
      end
  | inl _ => None
  end.

(** The one search request of an invocation: the caller's base, filter,
    scope and attributes, page size 5000, the cookie supplied to the
    invocation, and the control 1.2.840.113556.1.4.801, critical, whose
    value is the DER encoding of SEQUENCE { INTEGER 7 }. *)
Definition round_request (dn filter : string) (scope : Scope)
    (attributes : list string) (cookie : option string) : SearchRequest :=
  {| search_base := dn;
     search_filter := filter;
     search_scope := scope;
     search_attributes := attributes;
     search_controls :=
       [("1.2.840.113556.1.4.801", true, SDFlagsRequestValue 7)];
     paged_size := 5000;
     paged_cookie := cookie |}.

(** The calls of the search invocation that starts in state [st] with
    [cookie], those of its continuation pages included.  An invocation
    starts with the calls of [__Authentication], run from its own state.
    When that does not return a connection, these are all its calls.  When
    it does, they are a whole authentication: no search among them, and at
    their end a bind on a connection that had never been bound; exactly one
    search request follows, on that connection, and it is [round_request]
    with the cookie supplied.  After it come the calls of the invocation
    for the next page, which starts from the state so reached with the
    cookie that came back, when the reply has one; nothing comes after it
    otherwise. *)
Inductive paged_rounds {W} (net : Network W) (creds : Credentials)
    (secret : Credentials -> string) (dn filter : string) (scope : Scope)
    (attributes : list string)
    : option string -> State W -> list Event -> Prop :=
| rounds_end cookie st :
    (forall conn, (Authentication net creds secret st).1 <> Ok conn) ->
    Forall (fun e => is_search e = false)
      (new_events st (Authentication net creds secret st).2) ->
    paged_rounds net creds secret dn filter scope attributes cookie st
      (new_events st (Authentication net creds secret st).2)
| rounds_last cookie st conn st1 r w :
    Authentication net creds secret st = (Ok conn, st1) ->
    authenticated_by (new_events st st1) conn ->
    Forall (fun e => is_search e = false) (new_events st st1) ->
    net_search net conn (round_request dn filter scope attributes cookie)
      (world st1) = (r, w) ->
    continuation r = None ->
    paged_rounds net creds secret dn filter scope attributes cookie st
      (new_events st st1
       ++ [EvSearch conn (round_request dn filter scope attributes cookie) r])
| rounds_more cookie st conn st1 r w cookie' rest :
    Authentication net creds secret st = (Ok conn, st1) ->
    authenticated_by (new_events st st1) conn ->
    Forall (fun e => is_search e = false) (new_events st st1) ->
    net_search net conn (round_request dn filter scope attributes cookie)
      (world st1) = (r, w) ->
    continuation r = Some cookie' ->
    paged_rounds net creds secret dn filter scope attributes (Some cookie')
      (add_event
         (EvSearch conn (round_request dn filter scope attributes cookie) r)
         w st1)
      rest ->
    paged_rounds net creds secret dn filter scope attributes cookie st
      (new_events st st1
       ++ EvSearch conn (round_request dn filter scope attributes cookie) r
          :: rest).

(** The search request of one page, as [search] passes it to ldap3. *)
Definition page_request (dn filter : string) (scope : Scope)
    (attributes : list string) (cookie : option string) : SearchRequest :=
  {| search_base := dn;
     search_filter := filter;
     search_scope := scope;
     search_attributes := attributes;
     search_controls := [("1.2.840.113556.1.4.801", true, sd_flags_value)];
     paged_size := 5000;
     paged_cookie := cookie |}.

(** The server answers a paged search, started with [cookie] in state
    [st], with the pages [pages], one per round trip: every page but the
    last comes back with a non-empty cookie, which the next round trip
    carries, and the last one with no cookie or an empty one. *)
Inductive pages_served {W} (net : Network W) (creds : Credentials)
    (secret : Credentials -> string) (dn filter : string) (scope : Scope)
    (attributes : list string)
    : option string -> State W -> list (list Entry) -> State W -> Prop :=
| served_last cookie st conn st1 response result w :
    Authentication net creds secret st = (Ok conn, st1) ->
    net_search net conn (page_request dn filter scope attributes cookie) (world st1)
      = (inr (response, result), w) ->
    next_cookie result = inr None \/ next_cookie result = inr (Some "") ->
    pages_served net creds secret dn filter scope attributes cookie st [response]
      (add_event
         (EvSearch conn (page_request dn filter scope attributes cookie)
            (inr (response, result))) w st1)
| served_more cookie st conn st1 response result w cookie' pages st' :
    Authentication net creds secret st = (Ok conn, st1) ->
    net_search net conn (page_request dn filter scope attributes cookie) (world st1)
      = (inr (response, result), w) ->
    next_cookie result = inr (Some cookie') ->
    cookie' <> "" ->
    pages_served net creds secret dn filter scope attributes (Some cookie')
      (add_event
         (EvSearch conn (page_request dn filter scope attributes cookie)
            (inr (response, result))) w st1)
      pages st' ->
    pages_served net creds secret dn filter scope attributes cookie st
      (response :: pages) st'.

(** Sample directory entries and the two-page reply of a mocked server. *)
Definition account (name : string) : Entry :=
  mkEntry "searchResEntry"
    (Some {[ "sAMAccountName" := [name] ]})
    (Some {[ "sAMAccountName" := [name] ]}).

Definition page1 : list Entry := [account "alice"; account "bob"; account "carol"].
Definition page2 : list Entry := [account "dave"; account "DC01$"].

Definition two_pages : list Reply :=
  [RBind (inr success); RSearch (inr (page1, with_cookie (Some "C1")));
   RBind (inr success); RSearch (inr (page2, success))].

(** The element [e] of a response names the account [name]: its first raw
    sAMAccountName value is [name], and it decodes. *)
Definition names_account (e : Entry) (name : string) : Prop :=
  exists raw values,
    entry_raw_attributes e = Some raw
    /\ raw !! "sAMAccountName" = Some (name :: values)
    /\ utf8_wf (bytes_of name) = true.

(** A response that cannot fill the five naming contexts: no element at
    all, or a first element whose namingContexts attribute has fewer than
    five values. *)
Definition too_short (response : list Entry) : Prop :=
  response = []
  \/ exists first rest attributes values,
       response = first :: rest
       /\ entry_attributes first = Some attributes
       /\ attributes !! "namingContexts" = Some values
       /\ (length values < 5)%nat.

(** Sample replies of the root DSE. *)
Definition rootDSE (values : list string) : Entry :=
  mkEntry "searchResEntry" (Some {[ "namingContexts" := values ]})
    (Some {[ "namingContexts" := values ]}).

Definition five_contexts : list string :=
  ["DC=corp,DC=local"; "CN=Configuration,DC=corp,DC=local";
   "CN=Schema,CN=Configuration,DC=corp,DC=local";
   "DC=DomainDnsZones,DC=corp,DC=local"; "DC=ForestDnsZones,DC=corp,DC=local"].

Definition three_contexts : list string :=
  ["DC=corp,DC=local"; "CN=Configuration,DC=corp,DC=local";
   "CN=Schema,CN=Configuration,DC=corp,DC=local"].

Definition searchResRef : Entry := mkEntry "searchResRef" None None.

(** A page with a referral between two accounts. *)
Definition mixed_page : list Entry :=
  [account "alice"; searchResRef; account "DC01$"].

(** ** Vocabulary of the further properties *)

(** The call is an anonymous bind: no user, no password. *)
Definition anonymous_bind (ev : Event) : Prop :=
  exists c r,
    ev = EvBind c r
    /\ conn_user c = None
    /\ conn_password c = None
    /\ conn_authentication c = ANONYMOUS.

(** The three handshake failures of an unreachable target. *)
Definition all_handshakes_failed (host : string) : list Event :=
  (fun c => EvBind c (inl LDAPSocketOpenError)) <$> candidates host.

(** Two servers name the same transport: host, port, TLS configuration,
    and whether TLS is on. *)
Definition same_transport (a b : Server) : Prop :=
  srv_host a = srv_host b
  /\ srv_port a = srv_port b
  /\ srv_tls a = srv_tls b
  /\ truthy_bool (srv_use_ssl a) = truthy_bool (srv_use_ssl b).

(** Whatever TLS configuration the connection of a call has, it does not
    validate certificates and takes every cipher. *)
Definition permissive_tls (ev : Event) : Prop :=
  forall c tls,
    event_connection ev = Some c ->
    srv_tls (conn_server c) = Some tls ->
    tls_validate tls = CERT_NONE /\ tls_ciphers tls = "ALL:@SECLEVEL=0".

(** The calls of a run all go to the server [srv]. *)
Definition served_by (srv : Server) (evs : list Event) : Prop :=
  Forall (fun e => forall c, event_connection e = Some c -> conn_server c = srv) evs.

(** The server answers the first round trips of a paged search, started
    with [cookie] in state [st], with the pages [pages], each of them with
    a non-empty cookie; [cookie'] is the last of these cookies and [st']
    the state in which the next round trip starts. *)
Inductive pages_begun {W} (net : Network W) (creds : Credentials)
    (secret : Credentials -> string) (dn filter : string) (scope : Scope)
    (attributes : list string)
    : option string -> State W -> list (list Entry) -> option string
      -> State W -> Prop :=
| begun_none cookie st :
    pages_begun net creds secret dn filter scope attributes cookie st []
      cookie st
| begun_page cookie st conn st1 response result w next pages cookie' st' :
    Authentication net creds secret st = (Ok conn, st1) ->
    net_search net conn (page_request dn filter scope attributes cookie) (world st1)
      = (inr (response, result), w) ->
    next_cookie result = inr (Some next) ->
    next <> "" ->
    pages_begun net creds secret dn filter scope attributes (Some next)
      (add_event
         (EvSearch conn (page_request dn filter scope attributes cookie)
            (inr (response, result))) w st1)
      pages cookie' st' ->
    pages_begun net creds secret dn filter scope attributes cookie st
      (response :: pages) cookie' st'.

(** The five naming contexts of the object, in the order in which
    [getNamingContexts] assigns them. *)
Definition context_fields {W} (s : State W) : list (option string) :=
  [defaultNamingContext s; configurationNamingContext s; schemaNamingContext s;
   domainDnsZonesNamingContext s; forestDnsZonesNamingContext s].

(** ** Replies without a cookie, responses without an entry *)

(** The cookie that a result carries: the cookie of its paged-results
    control, when it has that control. *)
Definition carried_cookie (result : LdapResult) : option string :=
  match res_controls result with
  | Some controls =>
      match controls !! paged_results_oid with
      | Some c => value_cookie c
      | None => None
      end
  | None => None
  end.

(** Every page that carries no cookie, or an empty one, ends the search
    with that page's entries returned. *)
Definition stops_without_cookie : Prop :=
  forall (W : Type) (net : Network W) (creds : Credentials)
         (secret : Credentials -> string) (fuel : nat) (dn f : string)
         (sc : Scope) (attrs : list string) (ck : option string)
         (st st1 : State W) (conn : Connection) (response : list Entry)
         (result : LdapResult) (w : W),
    Authentication net creds secret st = (Ok conn, st1) ->
    net_search net conn (page_request dn f sc attrs ck) (world st1)
      = (inr (response, result), w) ->
    carried_cookie result = None \/ carried_cookie result = Some "" ->
    (search net creds secret (S fuel) dn f sc attrs ck st).1 = Ok response.

(** The directory entries among the elements of a response. *)
Definition directory_entries (response : list Entry) : list Entry :=
  filter (fun e => entry_type e = "searchResEntry") response.

(** Every naming-context response without a directory entry makes the
    authentication check report invalid credentials. *)
Definition reports_missing_entry : Prop :=
  forall (W : Type) (net : Network W) (creds : Credentials)
         (secret : Credentials -> string) (fuel : nat) (st0 st st1 : State W)
         (p : Z) (conn : Connection) (response : list Entry),
    method_port (target st0) = Some p ->
    Authentication net creds secret
      (add_log DEBUG
         ("Trying to connect to " +:+ remote (target st0) +:+ ":" +:+ pretty p)
         st0)
      = (Ok conn, st) ->
    search net creds secret fuel "" "(objectClass=*)" BASE ["namingContexts"]
      None st = (Ok response, st1) ->
    directory_entries response = [] ->
    fatal msg_invalid_credentials st1
      (checkAuthentication net creds secret fuel st0).

(** * Properties *)

(** ** Transport negotiation *)

Section Negotiation.
Context {W : Type} (net : Network W).

(** What the two probes do, in terms of the oracle's reply. *)
Lemma tryLDAPS_run (proto : _SSLMethod) (mp : option Z) (st : State W) :
  tryLDAPS net proto mp st =
    let c := tls_probe (remote (target st)) proto (int_or mp 636) in
    let '(r, w) := net_bind net c (world st) in
    let st' := add_event (EvBind c r) w st in
    match r with
    | inl LDAPSocketOpenError => (Ok (None, None), st')
    | inl LDAPSocketReceiveError => (Ok (Some (int_or mp 636), Some true), st')
    | inl e => (Raise e, st')
    | inr _ => (Ok (Some (int_or mp 636), Some true), st')
    end.
Proof.
  unfold tryLDAPS, try_catch, bind, gets, ret, Connection_bind, tls_probe.
  simpl. destruct (net_bind net _ (world st)) as [[e|r] w]; [destruct e|]; done.
Qed.

Lemma tryLDAP_run (mp : option Z) (st : State W) :
  tryLDAP net mp st =
    let st0 := add_log DEBUG "LDAPS failed, trying with LDAP." st in
    let c := plain_probe (remote (target st)) (int_or mp 389) in
    let '(r, w) := net_bind net c (world st) in
    let st' := add_event (EvBind c r) w st0 in
    match r with
    | inl LDAPSocketOpenError => (Ok None, st')
    | inl LDAPSocketReceiveError => (Ok (Some (int_or mp 389)), st')
    | inl e => (Raise e, st')
    | inr _ => (Ok (Some (int_or mp 389)), st')
    end.
Proof.
  unfold tryLDAP, try_catch, bind, gets, ret, Connection_bind, plain_probe,
    logger_debug, modify.
  simpl. destruct (net_bind net _ (world st)) as [[e|r] w]; [destruct e|]; done.
Qed.

Lemma int_or_falsy (mp : option Z) (d : Z) :
  truthy_int mp = false -> int_or mp d = d.
Proof.
  destruct mp as [n|]; simpl; [|done]. by destruct (n =? 0).
Qed.
End Negotiation.

(** Evaluate a negotiation: replace the probes by their equations and split
    on each reply of the oracle. *)
Ltac run_negotiation :=
  repeat first
    [ progress (unfold bind, gets, modify, ret, exit, logger_error; simpl)
    | rewrite tryLDAPS_run | rewrite tryLDAP_run
    | rewrite int_or_falsy by assumption
    | match goal with
      | |- context [net_bind ?n ?c ?w] =>
          let e := fresh "e" in
          destruct (net_bind n c w) as [[e|?] ?] eqn:?; [destruct e|]
      end ].

(** C1 (as amended): from a target without a port, negotiation binds a
    prefix of the three candidates TLS 1.2 on 636, TLS 1.0
    ([PROTOCOL_TLSv1]) on 636, plaintext on 389, in that order, moving on
    only after a handshake failure and stopping at the first other reply;
    when both TLS candidates fail at the handshake and the plaintext one is
    usable, the port is 389 and both TLS flags are None. *)
Theorem getPort_fallback_order {W} (net : Network W) (st : State W) :
  truthy_int (method_port (target st)) = false ->
  let host := remote (target st) in
  let st' := (getPort net st).2 in
  exists evs,
    wire st' = wire st ++ evs
    /\ fallback (candidates host) evs
    /\ (forall r,
          evs = [EvBind (tls_probe host PROTOCOL_TLSv1_2 636) (inl LDAPSocketOpenError);
                 EvBind (tls_probe host PROTOCOL_TLSv1 636) (inl LDAPSocketOpenError);
                 EvBind (plain_probe host 389) r] ->
          usable r = true ->
          (getPort net st).1 = Ok tt
          /\ method_port (target st') = Some 389
          /\ tlsv1_2 (target st') = None
          /\ tlsv1 (target st') = None).
Proof.
  intros Hport host st'. subst st' host.
  destruct (getPort net st) as [out st'] eqn:Hrun. revert Hrun.
  unfold getPort, bind at 1, gets at 1. rewrite Hport.
  run_negotiation.
  all: intros [= <- <-]; simpl; rewrite <- ?app_assoc; simpl.
  all: eexists; split; [reflexivity|]; split;
    [ unfold candidates; repeat apply fallback_next;
      first [apply fallback_exhausted | apply fallback_last; discriminate]
    | intros r Hevs Hr; inversion Hevs; subst; simpl in Hr; try discriminate; auto ].
Qed.

Lemma getPort_fallback_order_witness :
  let st := State_init dc01
              [RBind (inl LDAPSocketOpenError); RBind (inl LDAPSocketOpenError);
               RBind (inr success)] in
  truthy_int (method_port (target st)) = false
  /\ exists evs,
       wire (getPort scripted st).2 = wire st ++ evs
       /\ fallback (candidates "dc01.corp.local") evs
       /\ (forall r,
             evs = [EvBind (tls_probe "dc01.corp.local" PROTOCOL_TLSv1_2 636)
                      (inl LDAPSocketOpenError);
                    EvBind (tls_probe "dc01.corp.local" PROTOCOL_TLSv1 636)
                      (inl LDAPSocketOpenError);
                    EvBind (plain_probe "dc01.corp.local" 389) r] ->
             usable r = true ->
             (getPort scripted st).1 = Ok tt
             /\ method_port (target (getPort scripted st).2) = Some 389
             /\ tlsv1_2 (target (getPort scripted st).2) = None
             /\ tlsv1 (target (getPort scripted st).2) = None).
Proof.
  intros st. split; [reflexivity|].
  apply (getPort_fallback_order scripted st). reflexivity.
Defined.

(** The mocked run of the spec: both TLS handshakes fail, plaintext binds. *)
Example getPort_plaintext_run :
  let r := run (getPort scripted) dc01
             [RBind (inl LDAPSocketOpenError); RBind (inl LDAPSocketOpenError);
              RBind (inr success)] in
  r.1 = Ok tt
  /\ target r.2 = mkTarget "dc01.corp.local" None (Some 389) None None
  /\ wire r.2 =
       [EvBind (tls_probe "dc01.corp.local" PROTOCOL_TLSv1_2 636) (inl LDAPSocketOpenError);
        EvBind (tls_probe "dc01.corp.local" PROTOCOL_TLSv1 636) (inl LDAPSocketOpenError);
        EvBind (plain_probe "dc01.corp.local" 389) (inr success)].
Proof. vm_compute. auto. Qed.

(** The version each TLS candidate pins: 1.2, then 1.0. *)
Example candidates_pinned_versions :
  ((fun c => srv_tls (conn_server c) ≫= fun t => pinned_version (tls_version t))
     <$> candidates "dc01.corp.local")
  = [Some (1, 2); Some (1, 0); None].
Proof. reflexivity. Qed.

(** C1 (as stated): the legacy candidate is not TLS 1.1.  On the mocked run
    above the second bind is made with [PROTOCOL_TLSv1], which is TLS 1.0,
    so the trace is not a walk over the candidates with TLS 1.1 second. *)
Lemma getPort_legacy_is_not_tls11 : ~ negotiates_over candidates_tls11.
Proof.
  intros H.
  destruct (H (list Reply) scripted
              (State_init dc01
                 [RBind (inl LDAPSocketOpenError); RBind (inl LDAPSocketOpenError);
                  RBind (inr success)]) eq_refl) as (evs & Hw & Hf).
  vm_compute in Hw. subst evs.
  inversion Hf as [ | | c cs evs Hf2 ]; subst.
  inversion Hf2.
Qed.

(** C4: a candidate whose bind fails while reading the response, after the
    connection was opened, is taken: negotiation ends there with that
    candidate's port and, for the TLS candidates, that version's flag set;
    no later candidate is tried. *)
Theorem receive_failure_is_success {W} (net : Network W) (st : State W) :
  truthy_int (method_port (target st)) = false ->
  let host := remote (target st) in
  let c1 := tls_probe host PROTOCOL_TLSv1_2 636 in
  let c2 := tls_probe host PROTOCOL_TLSv1 636 in
  let c3 := plain_probe host 389 in
  let fin := getPort net st in
  (forall w1,
     net_bind net c1 (world st) = (inl LDAPSocketReceiveError, w1) ->
     fin.1 = Ok tt
     /\ wire fin.2 = wire st ++ [EvBind c1 (inl LDAPSocketReceiveError)]
     /\ method_port (target fin.2) = Some 636
     /\ tlsv1_2 (target fin.2) = Some true)
  /\ (forall w1 w2,
        net_bind net c1 (world st) = (inl LDAPSocketOpenError, w1) ->
        net_bind net c2 w1 = (inl LDAPSocketReceiveError, w2) ->
        fin.1 = Ok tt
        /\ wire fin.2 = wire st ++ [EvBind c1 (inl LDAPSocketOpenError);
                                    EvBind c2 (inl LDAPSocketReceiveError)]
        /\ method_port (target fin.2) = Some 636
        /\ tlsv1_2 (target fin.2) = None
        /\ tlsv1 (target fin.2) = Some true)
  /\ (forall w1 w2 w3,
        net_bind net c1 (world st) = (inl LDAPSocketOpenError, w1) ->
        net_bind net c2 w1 = (inl LDAPSocketOpenError, w2) ->
        net_bind net c3 w2 = (inl LDAPSocketReceiveError, w3) ->
        fin.1 = Ok tt
        /\ wire fin.2 = wire st ++ [EvBind c1 (inl LDAPSocketOpenError);
                                    EvBind c2 (inl LDAPSocketOpenError);
                                    EvBind c3 (inl LDAPSocketReceiveError)]
        /\ method_port (target fin.2) = Some 389
        /\ tlsv1_2 (target fin.2) = None
        /\ tlsv1 (target fin.2) = None).
Proof.
  intros Hport host c1 c2 c3 fin. subst fin c1 c2 c3 host.
  destruct (getPort net st) as [out st'] eqn:Hrun.
  repeat split; intros; revert Hrun;
    unfold getPort, bind at 1, gets at 1; rewrite Hport;
    repeat first
      [ progress (unfold bind, gets, modify, ret, exit, logger_error; simpl)
      | rewrite tryLDAPS_run | rewrite tryLDAP_run
      | rewrite int_or_falsy by assumption
      | match goal with H : net_bind _ _ _ = _ |- _ => rewrite H end ];
    intros [= <- <-]; simpl; rewrite <- ?app_assoc; reflexivity.
Qed.

Lemma receive_failure_is_success_witness :
  let host := "dc01.corp.local" in
  let fin1 := run (getPort scripted) dc01 [RBind (inl LDAPSocketReceiveError)] in
  let fin2 := run (getPort scripted) dc01
                [RBind (inl LDAPSocketOpenError); RBind (inl LDAPSocketReceiveError)] in
  let fin3 := run (getPort scripted) dc01
                [RBind (inl LDAPSocketOpenError); RBind (inl LDAPSocketOpenError);
                 RBind (inl LDAPSocketReceiveError)] in
  (fin1.1 = Ok tt
   /\ wire fin1.2 = [] ++ [EvBind (tls_probe host PROTOCOL_TLSv1_2 636)
                             (inl LDAPSocketReceiveError)]
   /\ method_port (target fin1.2) = Some 636
   /\ tlsv1_2 (target fin1.2) = Some true)
  /\ (fin2.1 = Ok tt
      /\ wire fin2.2 = [] ++ [EvBind (tls_probe host PROTOCOL_TLSv1_2 636)
                                (inl LDAPSocketOpenError);
                              EvBind (tls_probe host PROTOCOL_TLSv1 636)
                                (inl LDAPSocketReceiveError)]
      /\ method_port (target fin2.2) = Some 636
      /\ tlsv1_2 (target fin2.2) = None
      /\ tlsv1 (target fin2.2) = Some true)
  /\ (fin3.1 = Ok tt
      /\ wire fin3.2 = [] ++ [EvBind (tls_probe host PROTOCOL_TLSv1_2 636)
                                (inl LDAPSocketOpenError);
                              EvBind (tls_probe host PROTOCOL_TLSv1 636)
                                (inl LDAPSocketOpenError);
                              EvBind (plain_probe host 389)
                                (inl LDAPSocketReceiveError)]
      /\ method_port (target fin3.2) = Some 389
      /\ tlsv1_2 (target fin3.2) = None
      /\ tlsv1 (target fin3.2) = None).
Proof.
  intros host fin1 fin2 fin3. split; [|split].
  - exact (proj1 (receive_failure_is_success scripted
                    (State_init dc01 [RBind (inl LDAPSocketReceiveError)]) eq_refl)
             [] eq_refl).
  - exact (proj1 (proj2 (receive_failure_is_success scripted
                    (State_init dc01
                       [RBind (inl LDAPSocketOpenError);
                        RBind (inl LDAPSocketReceiveError)]) eq_refl))
             [RBind (inl LDAPSocketReceiveError)] [] eq_refl eq_refl).
  - exact (proj2 (proj2 (receive_failure_is_success scripted
                    (State_init dc01
                       [RBind (inl LDAPSocketOpenError);
                        RBind (inl LDAPSocketOpenError);
                        RBind (inl LDAPSocketReceiveError)]) eq_refl))
             [RBind (inl LDAPSocketOpenError); RBind (inl LDAPSocketReceiveError)]
             [RBind (inl LDAPSocketReceiveError)] [] eq_refl eq_refl eq_refl).
Defined.

(** ** Authentication *)

Section AuthenticationRuns.
Context {W : Type} (net : Network W).
Variable credentials : Credentials.
Variable secret : Credentials -> string.

(** Simple bind: the bind is not guarded, every exception goes up. *)
Lemma Authentication_simple_run (st : State W) :
  doKerberos credentials = false ->
  doSimpleBind credentials = true ->
  Authentication net credentials secret st =
    let c := Connection_new (server_of (target st)) (Some (user_of credentials))
               (Some (secret credentials)) SIMPLE in
    let '(r, w) := net_bind net c (world st) in
    let st' := add_event (EvBind c r) w st in
    match r with
    | inl e => (Raise e, st')
    | inr res => inspect_result (set_result (Some res) c) st'
    end.
Proof.
  intros Hk Hs.
  unfold Authentication, Connection_bind, try_catch, bind, gets, ret,
    inspect_result, logger_error, modify, exit, raise.
  rewrite Hk, Hs. simpl.
  destruct (net_bind net _ (world st)) as [[e|r] w]; [done|]. simpl.
  by case_bool_decide.
Qed.

(** NTLM: a failure to read the response is reported and fatal. *)
Lemma Authentication_ntlm_run (st : State W) :
  doKerberos credentials = false ->
  doSimpleBind credentials = false ->
  Authentication net credentials secret st =
    let c := Connection_new (server_of (target st)) (Some (user_of credentials))
               (Some (secret credentials)) NTLM in
    let '(r, w) := net_bind net c (world st) in
    let st' := add_event (EvBind c r) w st in
    match r with
    | inl LDAPSocketReceiveError => (Exit 1, add_log ERROR msg_ntlm_rejected st')
    | inl e => (Raise e, st')
    | inr res => inspect_result (set_result (Some res) c) st'
    end.
Proof.
  intros Hk Hs.
  unfold Authentication, Connection_bind, try_catch, bind, gets, ret,
    inspect_result, logger_error, modify, exit, raise.
  rewrite Hk, Hs. simpl.
  destruct (net_bind net _ (world st)) as [[e|r] w]; [by destruct e|]. simpl.
  by case_bool_decide.
Qed.

(** Kerberos: ticket, open, raw SASL bind, then the result code of the
    first response element is checked before the description is. *)
Lemma Authentication_kerberos_run (st : State W) :
  doKerberos credentials = true ->
  Authentication net credentials secret st =
    let c0 := Connection_new (server_of (target st)) None None ANONYMOUS in
    let a := kerberos_args credentials (target st) in
    let '(rk, w1) := net_kerberosLogin net a (world st) in
    let s1 := add_event (EvKerberosLogin a rk) w1 st in
    match rk with
    | inl e => (Raise e, s1)
    | inr blob =>
        let '(ro, w2) := net_open net c0 w1 in
        let s2 := add_event (EvOpen c0 ro) w2 s1 in
        match ro with
        | Some e => (Raise e, s2)
        | None =>
            let c1 := set_sasl_in_progress true (set_closed false c0) in
            let request :=
              mkBindRequest 3 SASL (username credentials) "GSS-SPNEGO" blob in
            let '(rs, w3) := net_sasl net c1 request w2 in
            let s3 := add_event (EvSaslBind c1 request rs) w3 s2 in
            match rs with
            | inl e => (Raise e, s3)
            | inr (response, result) =>
                match response with
                | [] => (Raise IndexError, s3)
                | first :: _ =>
                    if res_result first =? 0 then
                      inspect_result
                        (set_bound true
                           (set_sasl_in_progress false (set_result result c1)))
                        s3
                    else (Raise (Exception_ response), s3)
                end
            end
        end
    end.
Proof.
  intros Hk.
  unfold Authentication, kerberosAuthentication, Kerberos_kerberosLogin,
    Connection_open, Connection_send_bindRequest, list_get, bind, gets, ret,
    inspect_result, logger_error, modify, exit, raise.
  rewrite Hk. simpl.
  destruct (net_kerberosLogin net _ (world st)) as [[e|blob] w1]; [done|]. simpl.
  destruct (net_open net _ w1) as [[e|] w2]; [done|]. simpl.
  destruct (net_sasl net _ _ w2) as [[e|[response result]] w3]; [done|]. simpl.
  destruct response as [|first rest]; [done|]. simpl.
  destruct (res_result first =? 0); [|done]. simpl.
  destruct result as [res|]; [|done]. simpl.
  by case_bool_decide.
Qed.
End AuthenticationRuns.

Lemma new_events_app {W} (st st' : State W) (evs : list Event) :
  wire st' = wire st ++ evs -> new_events st st' = evs.
Proof. unfold new_events. intros ->. apply drop_app_length. Qed.

(** Split on the mechanism and on every reply of the oracle. *)
Ltac run_authentication creds :=
  let Hk := fresh "Hk" in
  let Hs := fresh "Hs" in
  destruct (doKerberos creds) eqn:Hk;
  [ rewrite (Authentication_kerberos_run _ _ _ _ Hk)
  | destruct (doSimpleBind creds) eqn:Hs;
    [ rewrite (Authentication_simple_run _ _ _ _ Hk Hs)
    | rewrite (Authentication_ntlm_run _ _ _ _ Hk Hs) ] ];
  cbv zeta;
  repeat match goal with
    | |- context [net_bind ?n ?c ?w] =>
        destruct (net_bind n c w) as [[[]|?] ?] eqn:?
    | |- context [net_kerberosLogin ?n ?a ?w] =>
        destruct (net_kerberosLogin n a w) as [[?|?] ?] eqn:?
    | |- context [net_open ?n ?c ?w] =>
        destruct (net_open n c w) as [[?|] ?] eqn:?
    | |- context [net_sasl ?n ?c ?r ?w] =>
        destruct (net_sasl n c r w) as [[?|[[|? ?] [?|]]] ?] eqn:?
    end;
  unfold inspect_result; simpl;
  repeat match goal with
    | |- context [res_result ?r =? 0] => destruct (res_result r =? 0) eqn:?
    | |- context [bool_decide ?P] => destruct (bool_decide_reflect P)
    end;
  simpl.

Section AuthenticationFacts.
Context {W : Type} (net : Network W).
Variable credentials : Credentials.
Variable secret : Credentials -> string.

(** The authenticator sends no search, talks only to the server built
    from the target, and leaves the target and the naming contexts
    alone. *)
Lemma Authentication_frame (st : State W) :
  let fin := Authentication net credentials secret st in
  target fin.2 = target st
  /\ defaultNamingContext fin.2 = defaultNamingContext st
  /\ (exists evs, wire fin.2 = wire st ++ evs /\ evs <> [])
  /\ Forall (fun e => is_search e = false
                      /\ forall c, event_connection e = Some c ->
                                   conn_server c = server_of (target st))
       (new_events st fin.2)
  /\ (forall c, fin.1 = Ok c -> conn_server c = server_of (target st)).
Proof.
  cbv zeta. run_authentication credentials.
  all: rewrite <- ?app_assoc; simpl.
  all: erewrite new_events_app by (simpl; rewrite <- ?app_assoc; reflexivity).
  all: split_and!; try done.
  all: first
    [ eexists; split; [reflexivity|discriminate]
    | repeat constructor; simpl; intros ? [= <-]; reflexivity
    | intros ? [= <-]; reflexivity ].
Qed.
End AuthenticationFacts.

Section AuthenticationOutcomes.
Context {W : Type} (net : Network W).
Variable credentials : Credentials.
Variable secret : Credentials -> string.

(** A search invocation whose authentication does not return a
    connection ends the way the authentication did, in the same state. *)
Lemma search_auth_fails (st : State W) (fuel : nat) (dn f : string)
    (sc : Scope) (attrs : list string) (ck : option string) :
  (forall c, (Authentication net credentials secret st).1 <> Ok c) ->
  search net credentials secret (S fuel) dn f sc attrs ck st =
    (propagate (Authentication net credentials secret st).1,
     (Authentication net credentials secret st).2).
Proof.
  intros Hfail. simpl. unfold bind at 1.
  destruct (Authentication net credentials secret st) as [[c| | |] st'];
    simpl in *; [by destruct (Hfail c)|done..].
Qed.
End AuthenticationOutcomes.

(** C3 (as amended): when the call that completes the bind leaves a result
    described as invalidCredentials, the authenticator, and so every search
    invocation, stops before any search request is sent; after a simple or
    NTLM bind, and after a Kerberos SASL bind whose first response element
    has result code 0, it logs "Invalid credentials !" and exits with
    status 1; after a Kerberos SASL bind whose first response element has a
    non-zero result code it raises Exception(response) instead. *)
Theorem invalid_credentials_stop_before_search {W} (net : Network W)
    (creds : Credentials) (secret : Credentials -> string) (st : State W)
    (ev : Event) (res : LdapResult) :
  let fin := Authentication net creds secret st in
  ev ∈ new_events st fin.2 ->
  bind_reply ev = Some res ->
  res_description res = "invalidCredentials" ->
  invalid_credentials_verdict st ev fin
  /\ forall fuel dn f sc attrs ck,
       invalid_credentials_verdict st ev
         (search net creds secret (S fuel) dn f sc attrs ck st).
Proof.
  intros fin Hev Hres Hdesc.
  assert (Hv : invalid_credentials_verdict st ev fin
               /\ forall c, fin.1 <> Ok c).
  { revert Hev. subst fin. unfold invalid_credentials_verdict, fatal.
    run_authentication creds.
    all: erewrite new_events_app by (simpl; rewrite <- ?app_assoc; reflexivity).
    all: intros Hev; repeat (apply elem_of_cons in Hev as [->|Hev]);
      try (by apply elem_of_nil in Hev); simpl in Hres; simplify_eq; simpl.
    all: repeat match goal with H : (_ =? _) = _ |- _ => rewrite H end.
    all: repeat split; try done; repeat constructor. }
  destruct Hv as [Hv Hfail]. split; [exact Hv|].
  intros. subst fin. rewrite search_auth_fails by exact Hfail.
  destruct Hv as [Hns Hout]. split; [exact Hns|].
  unfold fatal in *. simpl. destruct (sasl_response ev) as [[|first rest]|].
  - destruct Hout as [-> ?]. done.
  - destruct (res_result first =? 0); destruct Hout as [-> ?]; done.
  - destruct Hout as [-> ?]. done.
Qed.

Lemma invalid_credentials_stop_before_search_witness :
  let st := State_init (dc01_on 389) [RBind (inr invalidCredentials)] in
  let c := Connection_new (server_of (dc01_on 389)) (Some "CORP\alice")
             (Some "hunter2") SIMPLE in
  let ev := EvBind c (inr invalidCredentials) in
  let fin := Authentication scripted alice_simple secret_of st in
  (ev ∈ new_events st fin.2
   /\ bind_reply ev = Some invalidCredentials
   /\ res_description invalidCredentials = "invalidCredentials")
  /\ invalid_credentials_verdict st ev fin
  /\ forall fuel dn f sc attrs ck,
       invalid_credentials_verdict st ev
         (search scripted alice_simple secret_of (S fuel) dn f sc attrs ck st).
Proof.
  intros st c ev fin.
  assert (Hev : ev ∈ new_events st fin.2) by (vm_compute; apply list_elem_of_here).
  split; [repeat split; first [exact Hev | reflexivity]|].
  exact (invalid_credentials_stop_before_search scripted alice_simple secret_of
           st ev invalidCredentials Hev eq_refl eq_refl).
Defined.

(** The Kerberos run on which the claim as stated fails: the SASL bind is
    answered with result code 49, described as invalidCredentials. *)
Example kerberos_invalid_credentials_run :
  let fin := run (Authentication scripted alice_kerberos secret_of) (dc01_on 389)
               [RKerberosLogin (inr "blob"); ROpen None;
                RSasl (inr ([invalidCredentials], Some invalidCredentials))] in
  fin.1 = Raise (Exception_ [invalidCredentials]) /\ logged fin.2 = [].
Proof. vm_compute. auto. Qed.

(** C3 (as stated) fails for Kerberos: the bind exchange completes with a
    result described as invalidCredentials, and the authenticator raises
    Exception(response) instead of reporting invalid credentials. *)
Lemma kerberos_invalid_credentials_not_reported :
  ~ rejects_invalid_credentials alice_kerberos.
Proof.
  intros H.
  pose (st := State_init (dc01_on 389)
                [RKerberosLogin (inr "blob"); ROpen None;
                 RSasl (inr ([invalidCredentials], Some invalidCredentials))]).
  pose (c1 := set_sasl_in_progress true
                (set_closed false
                   (Connection_new (server_of (dc01_on 389)) None None ANONYMOUS))).
  pose (ev := EvSaslBind c1 (mkBindRequest 3 SASL "alice" "GSS-SPNEGO" "blob")
                (inr ([invalidCredentials], Some invalidCredentials))).
  assert (Hev : ev ∈ new_events st (Authentication scripted alice_kerberos secret_of st).2).
  { vm_compute. do 2 apply list_elem_of_further. apply list_elem_of_here. }
  destruct (H (list Reply) scripted secret_of st ev invalidCredentials Hev
              eq_refl eq_refl) as [Hout _].
  vm_compute in Hout. discriminate Hout.
Qed.

(** C7: under NTLM, a bind that fails while reading the response is fatal
    with its own report, which is not the invalid-credentials one and
    points to the simple-bind option; nothing else was sent. *)
Theorem ntlm_receive_failure_is_mechanism_rejected {W} (net : Network W)
    (creds : Credentials) (secret : Credentials -> string) (st : State W)
    (ev : Event) :
  doKerberos creds = false ->
  doSimpleBind creds = false ->
  let fin := Authentication net creds secret st in
  ev ∈ new_events st fin.2 ->
  event_exception ev = Some LDAPSocketReceiveError ->
  fatal msg_ntlm_rejected st fin
  /\ new_events st fin.2 = [ev]
  /\ msg_ntlm_rejected <> msg_invalid_credentials
  /\ mentions "simple-bind" msg_ntlm_rejected = true.
Proof.
  intros Hk Hs fin. subst fin. unfold fatal.
  rewrite (Authentication_ntlm_run _ _ _ _ Hk Hs). cbv zeta.
  destruct (net_bind net _ (world st)) as [[[]|res] w];
    unfold inspect_result; simpl;
    try destruct (bool_decide_reflect (res_description res = "invalidCredentials"));
    simpl.
  all: erewrite new_events_app by (simpl; reflexivity).
  all: intros Hev Hexn; apply list_elem_of_singleton in Hev as ->;
    simpl in Hexn; try discriminate Hexn.
  repeat split; done.
Qed.

Lemma ntlm_receive_failure_is_mechanism_rejected_witness :
  let st := State_init (dc01_on 389) [RBind (inl LDAPSocketReceiveError)] in
  let c := Connection_new (server_of (dc01_on 389)) (Some "CORP\alice")
             (Some "hunter2") NTLM in
  let ev := EvBind c (inl LDAPSocketReceiveError) in
  let fin := Authentication scripted alice secret_of st in
  (doKerberos alice = false /\ doSimpleBind alice = false
   /\ ev ∈ new_events st fin.2
   /\ event_exception ev = Some LDAPSocketReceiveError)
  /\ fatal msg_ntlm_rejected st fin
  /\ new_events st fin.2 = [ev]
  /\ msg_ntlm_rejected <> msg_invalid_credentials
  /\ mentions "simple-bind" msg_ntlm_rejected = true.
Proof.
  intros st c ev fin.
  assert (Hev : ev ∈ new_events st fin.2) by (vm_compute; apply list_elem_of_here).
  split; [repeat split; first [exact Hev | reflexivity]|].
  exact (ntlm_receive_failure_is_mechanism_rejected scripted alice secret_of st ev
           eq_refl eq_refl Hev eq_refl).
Defined.

(** C10: outside the NTLM branch nothing catches a failure to read the
    response: under simple bind (and under Kerberos) the exception leaves
    the authenticator as it is, nothing is logged and there is no exit. *)
Theorem simple_bind_receive_failure_propagates {W} (net : Network W)
    (creds : Credentials) (secret : Credentials -> string) (st : State W)
    (ev : Event) :
  doKerberos creds = true \/ doSimpleBind creds = true ->
  let fin := Authentication net creds secret st in
  ev ∈ new_events st fin.2 ->
  event_exception ev = Some LDAPSocketReceiveError ->
  fin.1 = Raise LDAPSocketReceiveError
  /\ logged fin.2 = logged st.
Proof.
  intros Hmech fin. subst fin.
  run_authentication creds.
  all: try (destruct Hmech; discriminate).
  all: erewrite new_events_app by (simpl; rewrite <- ?app_assoc; reflexivity).
  all: intros Hev Hexn; repeat (apply elem_of_cons in Hev as [->|Hev]);
    try (by apply elem_of_nil in Hev); simpl in Hexn; simplify_eq; done.
Qed.

Lemma simple_bind_receive_failure_propagates_witness :
  let st := State_init (dc01_on 389) [RBind (inl LDAPSocketReceiveError)] in
  let c := Connection_new (server_of (dc01_on 389)) (Some "CORP\alice")
             (Some "hunter2") SIMPLE in
  let ev := EvBind c (inl LDAPSocketReceiveError) in
  let fin := Authentication scripted alice_simple secret_of st in
  ((doKerberos alice_simple = true \/ doSimpleBind alice_simple = true)
   /\ ev ∈ new_events st fin.2
   /\ event_exception ev = Some LDAPSocketReceiveError)
  /\ fin.1 = Raise LDAPSocketReceiveError
  /\ logged fin.2 = logged st.
Proof.
  intros st c ev fin.
  assert (Hev : ev ∈ new_events st fin.2) by (vm_compute; apply list_elem_of_here).
  split; [repeat split; first [exact Hev | reflexivity | right; reflexivity]|].
  exact (simple_bind_receive_failure_propagates scripted alice_simple secret_of
           st ev (or_intror eq_refl) Hev eq_refl).
Defined.

(** ** Paged search *)

Section SearchRuns.
Context {W : Type} (net : Network W).
Variable credentials : Credentials.
Variable secret : Credentials -> string.

(** One invocation of [search], in terms of the oracle's replies. *)
Lemma search_S (fuel : nat) (dn f : string) (sc : Scope) (attrs : list string)
    (ck : option string) (st : State W) :
  search net credentials secret (S fuel) dn f sc attrs ck st =
    match Authentication net credentials secret st with
    | (Ok conn, st1) =>
        let request :=
          {| search_base := dn; search_filter := f; search_scope := sc;
             search_attributes := attrs;
             search_controls := [sd_flags_control];
             paged_size := 5000; paged_cookie := ck |} in
        let '(r, w) := net_search net conn request (world st1) in
        let st2 := add_event (EvSearch conn request r) w st1 in
        match r with
        | inl e => (Raise e, st2)
        | inr (response, result) =>
            match next_cookie result with
            | inl e => (Raise e, st2)
            | inr ck' =>
                if truthy_str ck' then
                  match search net credentials secret fuel dn f sc attrs ck' st2 with
                  | (Ok rest, st3) => (Ok (response ++ rest), st3)
                  | (o, st3) => (propagate o, st3)
                  end
                else (Ok response, st2)
            end
        end
    | (o, st1) => (propagate o, st1)
    end.
Proof.
  cbn [search]. unfold bind at 1.
  destruct (Authentication net credentials secret st) as [[conn| | |] st1]; try done.
  unfold bind at 1, Connection_search.
  destruct (net_search net conn _ (world st1)) as [[e|[response result]] w]; [done|].
  cbn [conn_response conn_result set_response set_result].
  unfold bind at 1, ret at 1. unfold bind at 1.
  unfold next_cookie. destruct (res_controls result) as [controls|]; cycle 1.
  { unfold ret at 1. simpl. done. }
  case_bool_decide.
  { unfold ret at 1. simpl. done. }
  unfold bind at 1, dict_get.
  destruct (controls !! paged_results_oid) as [c|]; [|done].
  unfold ret at 1 2. destruct (truthy_str (value_cookie c)); [|done].
  unfold bind at 1.
  destruct (search net credentials secret fuel dn f sc attrs (value_cookie c) _)
    as [[rest| | |] st3]; done.
Qed.
End SearchRuns.

Lemma sd_flags_control_der :
  sd_flags_control = ("1.2.840.113556.1.4.801", true, SDFlagsRequestValue 7).
Proof. reflexivity. Qed.

Section SearchFacts.
Context {W : Type} (net : Network W).
Variable credentials : Credentials.
Variable secret : Credentials -> string.

(** A successful authentication ends with a bind completed on a fresh
    connection, and returns that connection. *)
Lemma Authentication_binds_fresh (st st1 : State W) (conn : Connection) :
  Authentication net credentials secret st = (Ok conn, st1) ->
  authenticated_by (new_events st st1) conn.
Proof.
  unfold authenticated_by. run_authentication credentials.
  all: intros [= <- <-].
  all: erewrite new_events_app by (simpl; rewrite <- ?app_assoc; reflexivity).
  all: do 3 eexists; repeat split; reflexivity.
Qed.

(** What a search invocation leaves behind: calls to the server built
    from the target only, and the target and the default naming context as
    they were. *)
Lemma search_frame (fuel : nat) (dn f : string) (sc : Scope)
    (attrs : list string) (ck : option string) (st : State W) :
  let fin := search net credentials secret fuel dn f sc attrs ck st in
  target fin.2 = target st
  /\ defaultNamingContext fin.2 = defaultNamingContext st
  /\ exists evs,
       wire fin.2 = wire st ++ evs
       /\ Forall (fun e => forall c, event_connection e = Some c ->
                                     conn_server c = server_of (target st)) evs.
Proof.
  revert ck st. induction fuel as [|fuel IH]; intros ck st.
  { simpl. repeat split. exists []. rewrite app_nil_r.
    repeat split; repeat constructor. }
  cbv zeta. rewrite search_S.
  pose proof (Authentication_frame net credentials secret st) as HA.
  cbv zeta in HA.
  destruct (Authentication net credentials secret st) as [o st1].
  destruct HA as (Ht & Hd & (auth & Hw & _) & Hauth & Hsrv). simpl in *.
  rewrite (new_events_app _ _ _ Hw) in Hauth.
  assert (Hsv : Forall (fun e => forall c, event_connection e = Some c ->
                                 conn_server c = server_of (target st)) auth)
    by (eapply Forall_impl; [exact Hauth|]; by intros ? [? ?]).
  destruct o as [conn| | |]; simpl.
  2-4: repeat split; try done; by exists auth.
  specialize (Hsrv _ eq_refl).
  assert (Hone : forall r w,
            exists evs,
              wire (add_event
                      (EvSearch conn
                         {| search_base := dn; search_filter := f;
                            search_scope := sc; search_attributes := attrs;
                            search_controls := [sd_flags_control];
                            paged_size := 5000; paged_cookie := ck |} r) w st1)
              = wire st ++ evs
              /\ Forall (fun e => forall c, event_connection e = Some c ->
                            conn_server c = server_of (target st)) evs).
  { intros r w. eexists. split; [simpl; rewrite Hw, <- app_assoc; reflexivity|].
    apply Forall_app. split; [done|]. repeat constructor. by intros ? [= <-]. }
  destruct (net_search net conn _ (world st1)) as [[e|[response result]] w] eqn:Hs.
  { simpl. repeat split; try done. apply (Hone _ w). }
  cbv zeta.
  destruct (next_cookie result) as [e|ck'] eqn:Hck.
  { simpl. repeat split; try done. apply (Hone _ w). }
  destruct (truthy_str ck') eqn:Htr; cycle 1.
  { simpl. repeat split; try done. apply (Hone _ w). }
  match goal with
  | |- context [search net credentials secret fuel dn f sc attrs ck' ?s] =>
      specialize (IH ck' s); cbv zeta in IH;
      destruct (search net credentials secret fuel dn f sc attrs ck' s)
        as [o3 st3]
  end.
  destruct IH as (Ht3 & Hd3 & rest & Hw3 & Hsv3). simpl in *.
  assert (Hfin : target st3 = target st
                 /\ defaultNamingContext st3 = defaultNamingContext st
                 /\ exists evs,
                      wire st3 = wire st ++ evs
                      /\ Forall (fun e => forall c, event_connection e = Some c ->
                                   conn_server c = server_of (target st)) evs).
  { rewrite Ht3, Hd3, Ht. repeat split; try done.
    eexists. split; [rewrite Hw3; simpl; rewrite Hw, <- !app_assoc; reflexivity|].
    apply Forall_app. split; [done|]. constructor; [by intros ? [= <-]|].
    by rewrite Ht in Hsv3. }
  by destruct o3.
Qed.

(** The authenticator sends no search. *)
Lemma Authentication_no_search (st : State W) :
  Forall (fun e => is_search e = false)
    (new_events st (Authentication net credentials secret st).2).
Proof.
  destruct (Authentication_frame net credentials secret st)
    as (_ & _ & _ & Hauth & _).
  eapply Forall_impl; [exact Hauth|]. by intros ? [? ?].
Qed.

(** The calls of a search invocation that was not cut short by the depth
    allowed are rounds. *)
Lemma search_rounds_run (fuel : nat) (dn f : string) (sc : Scope)
    (attrs : list string) (ck : option string) (st : State W) :
  (search net credentials secret fuel dn f sc attrs ck st).1 <> OutOfFuel ->
  paged_rounds net credentials secret dn f sc attrs ck st
    (new_events st (search net credentials secret fuel dn f sc attrs ck st).2).
Proof.
  revert ck st. induction fuel as [|fuel IH]; intros ck st; [done|].
  rewrite search_S.
  pose proof (Authentication_no_search st) as Hns.
  pose proof (Authentication_binds_fresh st) as HB.
  destruct (Authentication_frame net credentials secret st)
    as (_ & _ & (auth & Hw & _) & _).
  pose proof (rounds_end net credentials secret dn f sc attrs ck st) as Hend.
  destruct (Authentication net credentials secret st) as [o st1] eqn:HA.
  simpl in Hw, Hns, Hend.
  destruct o as [conn| | |]; simpl; try (intros _; by apply Hend).
  specialize (HB _ _ eq_refl).
  rewrite sd_flags_control_der. fold (round_request dn f sc attrs ck).
  destruct (net_search net conn (round_request dn f sc attrs ck) (world st1))
    as [r w] eqn:Hs.
  assert (Hlast : continuation r = None ->
            paged_rounds net credentials secret dn f sc attrs ck st
              (new_events st
                 (add_event (EvSearch conn (round_request dn f sc attrs ck) r) w st1))).
  { intros Hc.
    erewrite (new_events_app st (add_event _ w st1))
      by (simpl; rewrite Hw, <- app_assoc; reflexivity).
    rewrite <- (new_events_app _ _ _ Hw).
    by eapply rounds_last. }
  destruct r as [e|[response result]]; [intros _; by apply Hlast|].
  cbv zeta. unfold continuation in Hlast.
  destruct (next_cookie result) as [e|[c'|]] eqn:Hck; simpl;
    try (intros _; by apply Hlast).
  destruct (bool_decide (c' = "")) eqn:Hempty; simpl;
    [intros _; by apply Hlast|].
  match goal with
  | |- context [search net credentials secret fuel dn f sc attrs (Some c') ?s] =>
      specialize (IH (Some c') s);
      destruct (search_frame fuel dn f sc attrs (Some c') s)
        as (_ & _ & rest & Hw3 & _);
      destruct (search net credentials secret fuel dn f sc attrs (Some c') s)
        as [o3 st3]
  end.
  cbn [fst snd] in IH, Hw3. rewrite (new_events_app _ _ _ Hw3) in IH.
  simpl in Hw3. intros Hfin.
  assert (Hrest : o3 <> OutOfFuel) by (intros ->; by apply Hfin).
  assert (Hev : new_events st st3
                = new_events st st1
                  ++ EvSearch conn (round_request dn f sc attrs ck)
                       (inr (response, result)) :: rest).
  { rewrite (new_events_app _ _ _ Hw).
    apply new_events_app. rewrite Hw3, Hw, <- !app_assoc. reflexivity. }
  assert (Hgoal : paged_rounds net credentials secret dn f sc attrs ck st
                    (new_events st st3)).
  { rewrite Hev.
    eapply rounds_more; [exact HA|exact HB|exact Hns|exact Hs| |by apply IH].
    unfold continuation. by rewrite Hck, Hempty. }
  by destruct o3.
Qed.
End SearchFacts.



Section Pages.
Context {W : Type} (net : Network W).
Variable credentials : Credentials.
Variable secret : Credentials -> string.

(** A page that comes back with a non-empty cookie. *)
Lemma search_page_more (fuel : nat) (dn f : string) (sc : Scope)
    (attrs : list string) (ck : option string) (st st1 : State W)
    (conn : Connection) (response : list Entry) (result : LdapResult) (w : W)
    (ck' : string) :
  Authentication net credentials secret st = (Ok conn, st1) ->
  net_search net conn (page_request dn f sc attrs ck) (world st1)
    = (inr (response, result), w) ->
  next_cookie result = inr (Some ck') ->
  ck' <> "" ->
  let st2 := add_event (EvSearch conn (page_request dn f sc attrs ck)
                          (inr (response, result))) w st1 in
  let cont := search net credentials secret fuel dn f sc attrs (Some ck') st2 in
  search net credentials secret (S fuel) dn f sc attrs ck st =
    (match cont.1 with
     | Ok rest => Ok (response ++ rest)
     | o => propagate o
     end, cont.2).
Proof.
  intros Hauth Hsearch Hck Hne. unfold page_request in *. cbv zeta.
  rewrite search_S, Hauth. cbv zeta.
  change [sd_flags_control]
    with [("1.2.840.113556.1.4.801", true, sd_flags_value)].
  rewrite Hsearch, Hck. simpl.
  rewrite bool_decide_eq_false_2 by done. simpl.
  by destruct (search net credentials secret fuel dn f sc attrs (Some ck') _)
    as [[rest| | |] st3].
Qed.

(** A page that comes back with no cookie, or an empty one. *)
Lemma search_page_last (fuel : nat) (dn f : string) (sc : Scope)
    (attrs : list string) (ck : option string) (st st1 : State W)
    (conn : Connection) (response : list Entry) (result : LdapResult) (w : W) :
  Authentication net credentials secret st = (Ok conn, st1) ->
  net_search net conn (page_request dn f sc attrs ck) (world st1)
    = (inr (response, result), w) ->
  next_cookie result = inr None \/ next_cookie result = inr (Some "") ->
  search net credentials secret (S fuel) dn f sc attrs ck st =
    (Ok response,
     add_event (EvSearch conn (page_request dn f sc attrs ck)
                  (inr (response, result))) w st1).
Proof.
  intros Hauth Hsearch Hck. unfold page_request in *.
  rewrite search_S, Hauth. cbv zeta.
  change [sd_flags_control]
    with [("1.2.840.113556.1.4.801", true, sd_flags_value)].
  rewrite Hsearch. by destruct Hck as [-> | ->].
Qed.
End Pages.

(** X23: when a round trip comes back with a non-empty cookie, the
    invocation calls [search] again with the same base, filter, scope and
    attributes and that cookie, and returns the page's entries followed by
    what the continuation returned; when the cookie it reads is None (a
    result without controls, with an empty controls dict, or with a
    paged-results control whose cookie is None) or empty, it returns the
    page's entries. *)
Theorem search_follows_cookie {W} (net : Network W) (creds : Credentials)
    (secret : Credentials -> string) (fuel : nat) (dn f : string) (sc : Scope)
    (attrs : list string) (ck : option string) (st st1 : State W)
    (conn : Connection) (response : list Entry) (result : LdapResult) (w : W) :
  Authentication net creds secret st = (Ok conn, st1) ->
  net_search net conn (page_request dn f sc attrs ck) (world st1)
    = (inr (response, result), w) ->
  let st2 := add_event (EvSearch conn (page_request dn f sc attrs ck)
                          (inr (response, result))) w st1 in
  (forall ck',
     next_cookie result = inr (Some ck') -> ck' <> "" ->
     let cont := search net creds secret fuel dn f sc attrs (Some ck') st2 in
     search net creds secret (S fuel) dn f sc attrs ck st =
       (match cont.1 with
        | Ok rest => Ok (response ++ rest)
        | o => propagate o
        end, cont.2))
  /\ (next_cookie result = inr None \/ next_cookie result = inr (Some "") ->
      search net creds secret (S fuel) dn f sc attrs ck st = (Ok response, st2)).
Proof.
  intros Hauth Hsearch st2. split.
  - intros ck' Hck Hne. by apply search_page_more.
  - intros Hck. by apply search_page_last.
Qed.

(** Page after page: the result is the pages in the order they came. *)
Lemma search_concat_pages {W} (net : Network W) (creds : Credentials)
    (secret : Credentials -> string) (dn f : string) (sc : Scope)
    (attrs : list string) (ck : option string) (st st' : State W)
    (pages : list (list Entry)) :
  pages_served net creds secret dn f sc attrs ck st pages st' ->
  forall fuel, (length pages <= fuel)%nat ->
    search net creds secret fuel dn f sc attrs ck st = (Ok (concat pages), st').
Proof.
  induction 1 as [ck st conn st1 response result w Hauth Hsearch Hck
                 |ck st conn st1 response result w ck' pages st' Hauth Hsearch
                    Hck Hne Hserved IH];
    intros [|fuel] Hfuel; simpl in Hfuel; try lia.
  - rewrite (search_page_last net creds secret fuel dn f sc attrs ck st st1 conn
               response result w Hauth Hsearch Hck).
    simpl. by rewrite app_nil_r.
  - rewrite (search_page_more net creds secret fuel dn f sc attrs ck st st1 conn
               response result w ck' Hauth Hsearch Hck Hne).
    cbv zeta. rewrite IH by lia. done.
Qed.

(** The mocked run of the spec: three entries and cookie C1, then two
    entries and no cookie. *)
Example search_two_pages :
  let fin := run (search scripted alice_simple secret_of 2 "DC=corp,DC=local"
                    "(objectClass=user)" SUBTREE ["sAMAccountName"] None)
               (dc01_on 389) two_pages in
  fin.1 = Ok (page1 ++ page2)
  /\ length (page1 ++ page2) = 5%nat
  /\ (paged_cookie <$> (wire fin.2 ≫= fun e =>
        match e with EvSearch _ request _ => [request] | _ => [] end))
     = [None; Some "C1"].
Proof. vm_compute. auto. Qed.

(** A result whose controls lack the paged-results control: the cookie
    lookup raises KeyError and no page is returned. *)
Example search_without_paged_results_control :
  let result := mkLdapResult 0 "success"
                  (Some {[ "1.2.840.113556.1.4.474" := mkControlValue None ]}) in
  (run (search scripted alice_simple secret_of 1 "DC=corp,DC=local"
          "(objectClass=user)" SUBTREE ["sAMAccountName"] None)
     (dc01_on 389) [RBind (inr success); RSearch (inr (page1, result))]).1
  = Raise (KeyError "1.2.840.113556.1.4.319").
Proof. vm_compute. reflexivity. Qed.

(** C2: a reply whose result has controls, the paged-results control not
    among them, carries no cookie; the invocation does not return the
    page's three entries: the lookup of line 157 raises KeyError, after the
    one search request, and nothing is returned. *)
Theorem search_without_cookie_raises :
  let result := mkLdapResult 0 "success"
                  (Some {[ "1.2.840.113556.1.4.474" := mkControlValue None ]}) in
  let fin := run (search scripted alice_simple secret_of 1 "DC=corp,DC=local"
                    "(objectClass=user)" SUBTREE ["sAMAccountName"] None)
               (dc01_on 389) [RBind (inr success); RSearch (inr (page1, result))] in
  carried_cookie result = None
  /\ length page1 = 3%nat
  /\ fin.1 = Raise (KeyError "1.2.840.113556.1.4.319")
  /\ fin.1 <> Ok page1
  /\ length (filter (fun e => is_search e = true) (wire fin.2)) = 1%nat.
Proof. vm_compute. split_and!; try reflexivity. discriminate. Qed.

(** The claim as stated, that every page without a cookie ends the search
    with its entries returned, is refuted by that run. *)
Lemma search_does_not_stop_without_cookie : ~ stops_without_cookie.
Proof.
  intros H.
  pose (result := mkLdapResult 0 "success"
                    (Some {[ "1.2.840.113556.1.4.474" := mkControlValue None ]})).
  pose (st := State_init (dc01_on 389)
                [RBind (inr success); RSearch (inr (page1, result))]).
  pose (c0 := Connection_new (server_of (dc01_on 389)) (Some "CORP\alice")
                (Some "hunter2") SIMPLE).
  pose (conn := set_result (Some success) c0).
  pose (st1 := add_event (EvBind c0 (inr success))
                 [RSearch (inr (page1, result))] st).
  assert (Hauth : Authentication scripted alice_simple secret_of st = (Ok conn, st1))
    by (vm_compute; reflexivity).
  assert (Hsearch : net_search scripted conn
                      (page_request "DC=corp,DC=local" "(objectClass=user)"
                         SUBTREE ["sAMAccountName"] None) (world st1)
                    = (inr (page1, result), []))
    by (vm_compute; reflexivity).
  pose proof (H (list Reply) scripted alice_simple secret_of 0%nat
                "DC=corp,DC=local" "(objectClass=user)" SUBTREE
                ["sAMAccountName"] None st st1 conn page1 result []
                Hauth Hsearch (or_introl eq_refl)) as Hout.
  vm_compute in Hout. discriminate Hout.
Qed.

Lemma search_follows_cookie_witness :
  let st := State_init (dc01_on 389) two_pages in
  let c0 := Connection_new (server_of (dc01_on 389)) (Some "CORP\alice")
              (Some "hunter2") SIMPLE in
  let conn := set_result (Some success) c0 in
  let st1 := add_event (EvBind c0 (inr success)) (tail two_pages) st in
  let request := page_request "DC=corp,DC=local" "(objectClass=user)" SUBTREE
                   ["sAMAccountName"] None in
  let result := with_cookie (Some "C1") in
  let st2 := add_event (EvSearch conn request (inr (page1, result)))
               (drop 2 two_pages) st1 in
  (Authentication scripted alice_simple secret_of st = (Ok conn, st1)
   /\ net_search scripted conn request (world st1)
      = (inr (page1, result), drop 2 two_pages)
   /\ next_cookie result = inr (Some "C1") /\ "C1" <> "")
  /\ search scripted alice_simple secret_of 2 "DC=corp,DC=local"
       "(objectClass=user)" SUBTREE ["sAMAccountName"] None st
     = (match (search scripted alice_simple secret_of 1 "DC=corp,DC=local"
                 "(objectClass=user)" SUBTREE ["sAMAccountName"] (Some "C1") st2).1
        with
        | Ok rest => Ok (page1 ++ rest)
        | o => propagate o
        end,
        (search scripted alice_simple secret_of 1 "DC=corp,DC=local"
           "(objectClass=user)" SUBTREE ["sAMAccountName"] (Some "C1") st2).2).
Proof.
  intros st c0 conn st1 request result st2.
  assert (Hauth : Authentication scripted alice_simple secret_of st = (Ok conn, st1))
    by (vm_compute; reflexivity).
  assert (Hsearch : net_search scripted conn request (world st1)
                    = (inr (page1, result), drop 2 two_pages))
    by (vm_compute; reflexivity).
  assert (Hck : next_cookie result = inr (Some "C1")) by (vm_compute; reflexivity).
  assert (Hne : "C1" <> "") by discriminate.
  split; [repeat split; assumption|].
  exact (proj1 (search_follows_cookie scripted alice_simple secret_of 1
                  "DC=corp,DC=local" "(objectClass=user)" SUBTREE
                  ["sAMAccountName"] None st st1 conn page1 result
                  (drop 2 two_pages) Hauth Hsearch) "C1" Hck Hne).
Defined.

(** ** A caller-supplied port *)

(** C5: with a port on the target, negotiation does nothing at all: no
    call is made and the state is as it was; when the flags were unset, as
    the constructor leaves them, every connection made afterwards by the
    authenticator and by search is without TLS on that port. *)
Theorem supplied_port_skips_negotiation {W} (net : Network W) (st : State W)
    (p : Z) :
  method_port (target st) = Some p ->
  p <> 0 ->
  getPort net st = (Ok tt, st)
  /\ (tlsv1_2 (target st) = None ->
      tlsv1 (target st) = None ->
      use_tls (target st) = None
      /\ forall creds secret fuel dn f sc attrs ck,
           Forall (fun e => forall c, event_connection e = Some c ->
                                      plaintext_on p c)
             (new_events st (Authentication net creds secret st).2)
           /\ Forall (fun e => forall c, event_connection e = Some c ->
                                         plaintext_on p c)
                (new_events st
                   (search net creds secret fuel dn f sc attrs ck st).2)).
Proof.
  intros Hp Hne. split.
  - unfold getPort, bind, gets, ret. rewrite Hp. simpl.
    by rewrite (proj2 (Z.eqb_neq p 0) Hne).
  - intros H12 H1.
    assert (Hsrv : server_of (target st)
                   = mkServer (remote (target st)) None (Some p) ALL None).
    { unfold server_of, use_tls, flag_or, ldapTls_of. by rewrite H12, H1, Hp. }
    split; [unfold use_tls, flag_or; by rewrite H12, H1|].
    intros creds secret fuel dn f sc attrs ck. split.
    + destruct (Authentication_frame net creds secret st)
        as (_ & _ & _ & Hall & _).
      eapply Forall_impl; [exact Hall|]. intros e [_ He] c Hc.
      unfold plaintext_on. by rewrite (He c Hc), Hsrv.
    + destruct (search_frame net creds secret fuel dn f sc attrs ck st)
        as (_ & _ & evs & Hw & Hall).
      rewrite (new_events_app _ _ _ Hw).
      eapply Forall_impl; [exact Hall|]. intros e He c Hc.
      unfold plaintext_on. by rewrite (He c Hc), Hsrv.
Qed.

Lemma supplied_port_skips_negotiation_witness :
  let st := State_init (dc01_on 636) [RBind (inr success)] in
  (method_port (target st) = Some 636 /\ 636 <> 0
   /\ tlsv1_2 (target st) = None /\ tlsv1 (target st) = None)
  /\ getPort scripted st = (Ok tt, st)
  /\ use_tls (target st) = None
  /\ Forall (fun e => forall c, event_connection e = Some c -> plaintext_on 636 c)
       (new_events st (Authentication scripted alice secret_of st).2).
Proof.
  intros st.
  pose proof (supplied_port_skips_negotiation scripted st 636 eq_refl
                ltac:(discriminate)) as [Hskip Hafter].
  destruct (Hafter eq_refl eq_refl) as [Htls Hconn].
  split; [repeat split; discriminate|].
  split; [exact Hskip|]. split; [exact Htls|].
  exact (proj1 (Hconn alice secret_of 0%nat "" "" BASE [] None)).
Defined.

(** A service that wants TLS on 636 is bound in the clear all the same. *)
Example supplied_port_636_in_the_clear :
  let fin := run (LDAP_init scripted alice secret_of 1) (dc01_on 636)
               [RBind (inl LDAPSocketReceiveError)] in
  fin.1 = Exit 1
  /\ (event_connection <$> wire fin.2)
     = [Some (Connection_new
                (mkServer "dc01.corp.local" None (Some 636) ALL None)
                (Some "CORP\alice") (Some "hunter2") NTLM)].
Proof. vm_compute. auto. Qed.

(** ** Directory queries *)

Section Queries.
Context {W : Type} (net : Network W).
Variable credentials : Credentials.
Variable secret : Credentials -> string.

(** [getNamingContexts] sends nothing beyond its search. *)
Lemma getNamingContexts_wire (fuel : nat) (st : State W) :
  wire (getNamingContexts net credentials secret fuel st).2
  = wire (search net credentials secret fuel "" "(objectClass=*)" BASE
            ["namingContexts"] None st).2
  /\ logged (getNamingContexts net credentials secret fuel st).2
     = logged (search net credentials secret fuel "" "(objectClass=*)" BASE
                 ["namingContexts"] None st).2.
Proof.
  unfold getNamingContexts, bind, list_get, dict_get, modify, ret, raise.
  destruct (search net credentials secret fuel "" "(objectClass=*)" BASE
              ["namingContexts"] None st) as [[response| | |] st1]; try done.
  destruct response as [|first rest]; simpl; [done|].
  destruct (entry_attributes first) as [attributes|]; [|done].
  destruct (attributes !! "namingContexts") as [values|]; [|done]. simpl.
  do 5 (destruct values as [|? values]; [done|]; simpl). done.
Qed.

(** The loop of [__getSAMAccountName] over a response whose entry markers
    all name an account. *)
Lemma getSAMAccountName_loop_names (response : list Entry) (acc : list string)
    (st : State W) :
  (forall e, e ∈ response -> entry_type e = "searchResEntry" ->
             exists name, names_account e name) ->
  exists names,
    getSAMAccountName_loop response acc st = (Ok (acc ++ names), st)
    /\ Forall2 names_account
         (filter (fun e => entry_type e = "searchResEntry") response) names.
Proof.
  revert acc. induction response as [|e response IH]; intros acc Hall.
  { exists []. rewrite app_nil_r. split; [done|constructor]. }
  cbn [getSAMAccountName_loop]. rewrite filter_cons.
  destruct (decide (entry_type e = "searchResEntry")) as [He|He].
  - rewrite bool_decide_eq_false_2 by (by intros Hn; apply Hn).
    destruct (Hall e (list_elem_of_here _ _) He)
      as (name & raw & values & Hraw & Hval & Hwf).
    unfold bind, dict_get, list_get, decode, ret.
    rewrite Hraw, Hval. simpl. rewrite Hwf.
    destruct (IH (acc ++ [name])) as (names & Hrun & Hnames).
    { intros e' He'. apply Hall. by apply list_elem_of_further. }
    exists (name :: names). rewrite Hrun, <- app_assoc. split; [done|].
    constructor; [|done]. by exists raw, values.
  - rewrite bool_decide_eq_true_2 by done.
    apply IH. intros e' He'. apply Hall. by apply list_elem_of_further.
Qed.
End Queries.

(** X24: naming-context discovery is the base-scope search on the empty DN
    for namingContexts; the first five values of the first element's
    attribute become, in this order, the default, configuration, schema,
    domain-DNS-zones and forest-DNS-zones naming contexts; on a response
    without elements, or a first element with fewer than five values, the
    IndexError it raises makes the authentication check log
    "Invalid credentials !" and exit with 1. *)
Theorem naming_contexts_discovery {W} (net : Network W) (creds : Credentials)
    (secret : Credentials -> string) (fuel : nat) (st st1 : State W)
    (response : list Entry) :
  search net creds secret fuel "" "(objectClass=*)" BASE ["namingContexts"] None st
    = (Ok response, st1) ->
  let fin := getNamingContexts net creds secret fuel st in
  paged_rounds net creds secret "" "(objectClass=*)" BASE ["namingContexts"]
    None st (new_events st fin.2)
  /\ (forall first rest attributes v0 v1 v2 v3 v4 more,
        response = first :: rest ->
        entry_attributes first = Some attributes ->
        attributes !! "namingContexts" = Some (v0 :: v1 :: v2 :: v3 :: v4 :: more) ->
        fin.1 = Ok tt
        /\ namingContexts fin.2 = Some (v0 :: v1 :: v2 :: v3 :: v4 :: more)
        /\ defaultNamingContext fin.2 = Some v0
        /\ configurationNamingContext fin.2 = Some v1
        /\ schemaNamingContext fin.2 = Some v2
        /\ domainDnsZonesNamingContext fin.2 = Some v3
        /\ forestDnsZonesNamingContext fin.2 = Some v4)
  /\ (too_short response ->
      fin.1 = Raise IndexError
      /\ forall st0 p conn,
           method_port (target st0) = Some p ->
           Authentication net creds secret
             (add_log DEBUG
                ("Trying to connect to " +:+ remote (target st0) +:+ ":" +:+ pretty p)
                st0)
             = (Ok conn, st) ->
           fatal msg_invalid_credentials st1
             (checkAuthentication net creds secret fuel st0)).
Proof.
  intros Hsearch fin.
  destruct (getNamingContexts_wire net creds secret fuel st) as [Hwire Hlog].
  rewrite Hsearch in Hwire, Hlog. simpl in Hwire, Hlog.
  split; [|split].
  - pose proof (search_rounds_run net creds secret fuel "" "(objectClass=*)"
                  BASE ["namingContexts"] None st) as Hrounds.
    rewrite Hsearch in Hrounds. simpl in Hrounds.
    unfold new_events in *. subst fin. rewrite Hwire. by apply Hrounds.
  - intros first rest attributes v0 v1 v2 v3 v4 more -> Hattr Hvalues.
    subst fin. unfold getNamingContexts, bind, list_get, dict_get, modify, ret.
    rewrite Hsearch. simpl. rewrite Hattr, Hvalues. simpl. done.
  - intros Hshort.
    assert (Hraise : fin.1 = Raise IndexError).
    { subst fin. unfold getNamingContexts, bind, list_get, dict_get, modify, ret, raise.
      rewrite Hsearch.
      destruct Hshort as [->|(first & rest & attributes & values & -> & Hattr & Hvalues & Hlen)];
        [done|].
      simpl. rewrite Hattr, Hvalues. simpl.
      do 5 (destruct values as [|? values]; [done|]; simpl in * ). lia. }
    split; [exact Hraise|].
    intros st0 p conn Hp Hauth.
    unfold fatal, checkAuthentication, bind, gets, ret, logger_debug,
      logger_error, modify, try_catch, exit.
    rewrite Hp. simpl. rewrite Hauth. subst fin.
    destruct (getNamingContexts net creds secret fuel st) as [o st2].
    simpl in *. subst o. simpl. by rewrite Hlog.
Qed.

Lemma naming_contexts_discovery_witness :
  let good := State_init (dc01_on 389)
                [RBind (inr success); RSearch (inr ([rootDSE five_contexts], success))] in
  let st0 := State_init (dc01_on 389)
               [RBind (inr success); RBind (inr success);
                RSearch (inr ([rootDSE three_contexts], success))] in
  let st := (Authentication scripted alice_simple secret_of
               (add_log DEBUG "Trying to connect to dc01.corp.local:389" st0)).2 in
  let query s := search scripted alice_simple secret_of 1 "" "(objectClass=*)"
                   BASE ["namingContexts"] None s in
  (query good = (Ok [rootDSE five_contexts], (query good).2)
   /\ query st = (Ok [rootDSE three_contexts], (query st).2)
   /\ too_short [rootDSE three_contexts])
  /\ (let fin := getNamingContexts scripted alice_simple secret_of 1 good in
      fin.1 = Ok tt
      /\ namingContexts fin.2 = Some five_contexts
      /\ defaultNamingContext fin.2 = Some "DC=corp,DC=local"
      /\ configurationNamingContext fin.2 = Some "CN=Configuration,DC=corp,DC=local"
      /\ schemaNamingContext fin.2
         = Some "CN=Schema,CN=Configuration,DC=corp,DC=local"
      /\ domainDnsZonesNamingContext fin.2
         = Some "DC=DomainDnsZones,DC=corp,DC=local"
      /\ forestDnsZonesNamingContext fin.2
         = Some "DC=ForestDnsZones,DC=corp,DC=local")
  /\ fatal msg_invalid_credentials (query st).2
       (checkAuthentication scripted alice_simple secret_of 1 st0).
Proof.
  intros good st0 st query.
  assert (Hgood : query good = (Ok [rootDSE five_contexts], (query good).2))
    by (vm_compute; reflexivity).
  assert (Hshort : query st = (Ok [rootDSE three_contexts], (query st).2))
    by (vm_compute; reflexivity).
  assert (Htoo : too_short [rootDSE three_contexts]).
  { right. exists (rootDSE three_contexts), [],
      {[ "namingContexts" := three_contexts ]}, three_contexts.
    repeat split. simpl. lia. }
  split; [by repeat split|]. split.
  - exact (proj1 (proj2 (naming_contexts_discovery scripted alice_simple secret_of
                           1 good (query good).2 [rootDSE five_contexts] Hgood))
             (rootDSE five_contexts) [] {[ "namingContexts" := five_contexts ]}
             _ _ _ _ _ [] eq_refl eq_refl eq_refl).
  - exact (proj2 (proj2 (proj2 (naming_contexts_discovery scripted alice_simple
                                  secret_of 1 st (query st).2
                                  [rootDSE three_contexts] Hshort)) Htoo)
             st0 389 _ eq_refl eq_refl).
Defined.

(** An empty reply to the naming-context query, end to end. *)
Example empty_rootDSE_is_invalid_credentials :
  let fin := run (LDAP_init scripted alice secret_of 1) dc01
               [RBind (inr success); RBind (inr success); RBind (inr success);
                RSearch (inr ([], success))] in
  fin.1 = Exit 1
  /\ logged fin.2 = [(DEBUG, "Trying to connect to dc01.corp.local:636");
                     (ERROR, "Invalid credentials !")].
Proof. vm_compute. auto. Qed.

(** C8: a reply to the naming-context query that holds a referral and no
    directory entry is not reported as invalid credentials: the lookup of
    line 189 raises KeyError, which the handler of line 45 does not catch;
    the authentication check ends in that exception, with nothing logged
    after the connection attempt and no naming context assigned. *)
Theorem referral_only_reply_is_not_reported :
  let fin := run (checkAuthentication scripted alice_simple secret_of 1)
               (dc01_on 389)
               [RBind (inr success); RBind (inr success);
                RSearch (inr ([searchResRef], success))] in
  directory_entries [searchResRef] = []
  /\ fin.1 = Raise (KeyError "attributes")
  /\ fin.1 <> Exit 1
  /\ logged fin.2 = [(DEBUG, "Trying to connect to dc01.corp.local:389")]
  /\ context_fields fin.2 = [None; None; None; None; None].
Proof. vm_compute. split_and!; try reflexivity. discriminate. Qed.

(** The claim as stated, that every reply without a directory entry is
    reported as invalid credentials, is refuted by that run. *)
Lemma missing_entry_is_not_always_reported : ~ reports_missing_entry.
Proof.
  intros H.
  pose (st0 := State_init (dc01_on 389)
                 [RBind (inr success); RBind (inr success);
                  RSearch (inr ([searchResRef], success))]).
  pose (st := (Authentication scripted alice_simple secret_of
                 (add_log DEBUG "Trying to connect to dc01.corp.local:389" st0)).2).
  pose (srch := search scripted alice_simple secret_of 1 "" "(objectClass=*)" BASE
                  ["namingContexts"] None st).
  assert (Hsearch : srch = (Ok [searchResRef], srch.2))
    by (vm_compute; reflexivity).
  destruct (H (list Reply) scripted alice_simple secret_of 1%nat st0 st srch.2
              389 _ [searchResRef] eq_refl eq_refl Hsearch eq_refl) as [Hout _].
  vm_compute in Hout. discriminate Hout.
Qed.



(** Two pages of accounts, end to end. *)
Example getAllUsers_two_pages :
  let st := set_defaultNamingContext "DC=corp,DC=local"
              (State_init (dc01_on 389) two_pages) in
  (getAllUsers scripted alice_simple secret_of 2 st).1
  = Ok ["alice"; "bob"; "carol"; "dave"; "DC01$"].
Proof. vm_compute. reflexivity. Qed.

(** The referral in the middle is skipped, the order is kept. *)
Example getSAMAccountName_mixed_page :
  (getSAMAccountName mixed_page (State_init dc01 ([] : list Reply))).1
  = Ok ["alice"; "DC01$"].
Proof. vm_compute. reflexivity. Qed.

(** * Further properties *)

(** ** Negotiation: failure, invariants, and what follows it *)

Lemma new_events_same {W} (st : State W) : new_events st st = [].
Proof. unfold new_events. apply drop_all. Qed.

(** Evaluate [__getPort] from a target without a port, keeping the run as
    an equation [getPort net st = (out, st')] in the goal. *)
Ltac run_getPort Hport :=
  unfold getPort, bind at 1, gets at 1; rewrite Hport;
  run_negotiation.

(** X1: negotiation ends in [exit(1)] exactly when all three candidates
    fail at the handshake; it has then logged the unreachable target by
    name and left the port and both flags None. *)
Theorem unreachable_target_is_fatal {W} (net : Network W) (st : State W) :
  truthy_int (method_port (target st)) = false ->
  let host := remote (target st) in
  let fin := getPort net st in
  (forall code, fin.1 = Exit code ->
     code = 1 /\ new_events st fin.2 = all_handshakes_failed host)
  /\ (new_events st fin.2 = all_handshakes_failed host ->
      fin.1 = Exit 1
      /\ logged fin.2
         = logged st ++
           [(DEBUG, "LDAPS failed, trying with LDAP.");
            (ERROR, "Impossible to communicate with the target " +:+ host +:+ " !")]
      /\ method_port (target fin.2) = None
      /\ tlsv1_2 (target fin.2) = None
      /\ tlsv1 (target fin.2) = None).
Proof.
  intros Hport host fin. subst host fin.
  destruct (getPort net st) as [out st'] eqn:Hrun. revert Hrun.
  run_getPort Hport.
  all: intros [= <- <-]; simpl.
  all: erewrite new_events_app by (simpl; rewrite <- ?app_assoc; reflexivity).
  all: split; [intros code Hcode; try discriminate Hcode
              |intros Hevs; try discriminate Hevs].
  - by injection Hcode as <-.
  - rewrite <- !app_assoc. done.
Qed.

Lemma unreachable_target_is_fatal_witness :
  let st := State_init dc01
              [RBind (inl LDAPSocketOpenError); RBind (inl LDAPSocketOpenError);
               RBind (inl LDAPSocketOpenError)] in
  let fin := getPort scripted st in
  (truthy_int (method_port (target st)) = false
   /\ new_events st fin.2 = all_handshakes_failed "dc01.corp.local")
  /\ fin.1 = Exit 1
  /\ logged fin.2
     = [] ++ [(DEBUG, "LDAPS failed, trying with LDAP.");
              (ERROR, "Impossible to communicate with the target "
                        +:+ "dc01.corp.local" +:+ " !")]
  /\ method_port (target fin.2) = None
  /\ tlsv1_2 (target fin.2) = None
  /\ tlsv1 (target fin.2) = None.
Proof.
  intros st fin.
  assert (Hevs : new_events st fin.2 = all_handshakes_failed "dc01.corp.local")
    by (vm_compute; reflexivity).
  split; [split; [reflexivity|exact Hevs]|].
  exact (proj2 (unreachable_target_is_fatal scripted st eq_refl) Hevs).
Defined.



(** X3: an exception of a probe other than the two that [__tryLDAPS] and
    [__tryLDAP] catch leaves negotiation as it is: that probe is the last
    call, no further candidate is tried, and there is no exit. *)
Theorem unexpected_probe_exception_propagates {W} (net : Network W)
    (st : State W) (ev : Event) (e : Exn) :
  truthy_int (method_port (target st)) = false ->
  let fin := getPort net st in
  ev ∈ new_events st fin.2 ->
  event_exception ev = Some e ->
  e <> LDAPSocketOpenError ->
  e <> LDAPSocketReceiveError ->
  fin.1 = Raise e /\ last (new_events st fin.2) = Some ev.
Proof.
  intros Hport fin. subst fin.
  destruct (getPort net st) as [out st'] eqn:Hrun. revert Hrun.
  run_getPort Hport.
  all: intros [= <- <-]; simpl.
  all: erewrite new_events_app by (simpl; rewrite <- ?app_assoc; reflexivity).
  all: intros Hev Hexn Hno Hnr;
    repeat (apply elem_of_cons in Hev as [->|Hev]);
    try (by apply elem_of_nil in Hev); simpl in Hexn; simplify_eq; done.
Qed.

Lemma unexpected_probe_exception_propagates_witness :
  let st := State_init dc01
              [RBind (inl LDAPSocketOpenError); RBind (inl (OtherError "LDAPSocketSendError"))] in
  let fin := getPort scripted st in
  let ev := EvBind (tls_probe "dc01.corp.local" PROTOCOL_TLSv1 636)
              (inl (OtherError "LDAPSocketSendError")) in
  (truthy_int (method_port (target st)) = false
   /\ ev ∈ new_events st fin.2
   /\ event_exception ev = Some (OtherError "LDAPSocketSendError")
   /\ OtherError "LDAPSocketSendError" <> LDAPSocketOpenError
   /\ OtherError "LDAPSocketSendError" <> LDAPSocketReceiveError)
  /\ fin.1 = Raise (OtherError "LDAPSocketSendError")
  /\ last (new_events st fin.2) = Some ev.
Proof.
  intros st fin ev.
  assert (Hev : ev ∈ new_events st fin.2)
    by (vm_compute; apply list_elem_of_further, list_elem_of_here).
  split; [repeat split; first [exact Hev | reflexivity | discriminate]|].
  exact (unexpected_probe_exception_propagates scripted st ev _ eq_refl Hev eq_refl
           ltac:(discriminate) ltac:(discriminate)).
Defined.

(** X4: every probe of negotiation is an anonymous bind: no user name and
    no password leave the program before a transport is chosen. *)
Theorem negotiation_is_anonymous {W} (net : Network W) (st : State W) :
  Forall anonymous_bind (new_events st (getPort net st).2).
Proof.
  destruct (truthy_int (method_port (target st))) eqn:Hport.
  { unfold getPort, bind, gets, ret. rewrite Hport. simpl.
    rewrite new_events_same. constructor. }
  destruct (getPort net st) as [out st'] eqn:Hrun. revert Hrun.
  run_getPort Hport.
  all: intros [= <- <-]; simpl.
  all: erewrite new_events_app by (simpl; rewrite <- ?app_assoc; reflexivity).
  all: repeat constructor; eexists _, _; done.
Qed.

(** ** What reaches the wire, and what is left alone *)

(** The probes of negotiation are binds of the candidates. *)
Lemma getPort_events {W} (net : Network W) (st : State W) :
  exists evs,
    wire (getPort net st).2 = wire st ++ evs
    /\ Forall (fun e => exists c r, e = EvBind c r
                                    /\ c ∈ candidates (remote (target st))) evs.
Proof.
  destruct (truthy_int (method_port (target st))) eqn:Hport.
  { unfold getPort, bind, gets, ret. rewrite Hport. simpl.
    exists []. by rewrite app_nil_r. }
  destruct (getPort net st) as [out st'] eqn:Hrun. revert Hrun.
  unfold getPort, bind at 1, gets at 1; rewrite Hport; run_negotiation.
  all: intros [= <- <-]; simpl; rewrite <- ?app_assoc; simpl.
  all: eexists; split; [reflexivity|].
  all: repeat (apply List.Forall_cons;
                 [eexists _, _; split; [reflexivity|unfold candidates; set_solver]|]).
  all: apply List.Forall_nil.
Qed.

Section Frames.
Context {W : Type} (net : Network W).
Variable credentials : Credentials.
Variable secret : Credentials -> string.

(** [getNamingContexts] touches the target, the wire and the log only
    through its search. *)
Lemma getNamingContexts_frame (fuel : nat) (st : State W) :
  let fin := getNamingContexts net credentials secret fuel st in
  let srch := search net credentials secret fuel "" "(objectClass=*)" BASE
                ["namingContexts"] None st in
  target fin.2 = target srch.2
  /\ wire fin.2 = wire srch.2
  /\ logged fin.2 = logged srch.2
  /\ world fin.2 = world srch.2.
Proof.
  cbv zeta.
  unfold getNamingContexts, bind, list_get, dict_get, modify, ret, raise.
  destruct (search net credentials secret fuel "" "(objectClass=*)" BASE
              ["namingContexts"] None st) as [[response| | |] st1]; try done.
  destruct response as [|first rest]; simpl; [done|].
  destruct (entry_attributes first) as [attributes|]; [|done].
  destruct (attributes !! "namingContexts") as [values|]; [|done]. simpl.
  do 5 (destruct values as [|? values]; [done|]; simpl). done.
Qed.

(** [getAllUsers] likewise. *)
Lemma getAllUsers_frame (fuel : nat) (st : State W) :
  let fin := getAllUsers net credentials secret fuel st in
  target fin.2 = target st
  /\ defaultNamingContext fin.2 = defaultNamingContext st
  /\ exists evs,
       wire fin.2 = wire st ++ evs
       /\ served_by (server_of (target st)) evs.
Proof.
  cbv zeta. unfold getAllUsers, bind, gets, ret, raise.
  destruct (defaultNamingContext st) as [base|] eqn:Hbase; simpl; cycle 1.
  { rewrite Hbase. repeat split. exists []. rewrite app_nil_r. split; [done|constructor]. }
  pose proof (search_frame net credentials secret fuel base users_filter SUBTREE
                ["sAMAccountName"] None st) as HF. cbv zeta in HF.
  destruct (search net credentials secret fuel base users_filter SUBTREE
              ["sAMAccountName"] None st) as [[response| | |] st1];
    simpl in *; destruct HF as (Ht & Hd & evs & Hw & Hsrv).
  2-4: rewrite Hd; repeat split; try done; by exists evs.
  assert (Hloop : forall l acc s,
            (getSAMAccountName_loop l acc s).2 = (s : State W)).
  { induction l as [|e l IH]; intros acc s; [done|].
    cbn [getSAMAccountName_loop]. unfold bind, dict_get, list_get, decode, ret, raise.
    case_bool_decide; [apply IH|].
    destruct (entry_raw_attributes e) as [raw|]; [|done].
    destruct (raw !! "sAMAccountName") as [[|v vs]|]; try done. simpl.
    destruct (utf8_wf (bytes_of v)); [apply IH|done]. }
  unfold getSAMAccountName. rewrite Hloop, Hd.
  repeat split; try done. by exists evs.
Qed.

(** [__checkAuthentication] talks only to the server built from the
    target, which it leaves alone. *)
Lemma checkAuthentication_frame (fuel : nat) (st : State W) :
  let fin := checkAuthentication net credentials secret fuel st in
  target fin.2 = target st
  /\ exists evs,
       wire fin.2 = wire st ++ evs
       /\ served_by (server_of (target st)) evs.
Proof.
  cbv zeta.
  unfold checkAuthentication, bind, gets, ret, raise, logger_debug, logger_error,
    modify, try_catch, exit.
  destruct (method_port (target st)) as [p|]; simpl; cycle 1.
  { split; [done|]. exists []. rewrite app_nil_r. split; [done|constructor]. }
  match goal with
  | |- context [Authentication net credentials secret ?s] =>
      pose proof (Authentication_frame net credentials secret s) as HA;
      cbv zeta in HA;
      destruct (Authentication net credentials secret s) as [o st1]
  end.
  destruct HA as (Ht & _ & (auth & Hw & _) & Hauth & _).
  unfold new_events in Hauth. simpl in *.
  rewrite Hw, drop_app_length in Hauth.
  assert (Hsv : served_by (server_of (target st)) auth)
    by (eapply Forall_impl; [exact Hauth|]; by intros ? [? ?]).
  destruct o as [conn| | |]; simpl; try (split; [done|]; by exists auth).
  pose proof (getNamingContexts_frame fuel st1) as HN.
  pose proof (search_frame net credentials secret fuel "" "(objectClass=*)" BASE
                ["namingContexts"] None st1) as HS.
  cbv zeta in HN, HS.
  destruct (getNamingContexts net credentials secret fuel st1) as [o2 st2].
  destruct HN as (Ht2 & Hw2 & _ & _).
  destruct HS as (Ht3 & _ & evs & Hw3 & Hsv3). simpl in *.
  assert (Hfin : target st2 = target st
                 /\ exists evs', wire st2 = wire st ++ evs'
                                 /\ served_by (server_of (target st)) evs').
  { split; [congruence|]. exists (auth ++ evs).
    rewrite Hw2, Hw3, Hw, <- app_assoc. split; [done|].
    apply Forall_app. split; [done|]. by rewrite Ht in Hsv3. }
  destruct o2 as [[]|e| |]; simpl; try done.
  destruct e; simpl; done.
Qed.
End Frames.

Lemma ldapTls_of_permissive (t : Target) (tls : Tls) :
  ldapTls_of t = Some tls ->
  tls_validate tls = CERT_NONE /\ tls_ciphers tls = "ALL:@SECLEVEL=0".
Proof.
  unfold ldapTls_of.
  destruct (truthy_bool (tlsv1_2 t)); [by intros [= <-]|].
  destruct (truthy_bool (tlsv1 t)); [by intros [= <-]|done].
Qed.

Lemma served_by_permissive (t : Target) (evs : list Event) :
  served_by (server_of t) evs -> Forall permissive_tls evs.
Proof.
  intros H. eapply Forall_impl; [exact H|].
  intros e He c tls Hc Htls. rewrite (He c Hc) in Htls.
  by apply (ldapTls_of_permissive t).
Qed.

Lemma candidates_permissive (host : string) (evs : list Event) :
  Forall (fun e => exists c r, e = EvBind c r /\ c ∈ candidates host) evs ->
  Forall permissive_tls evs.
Proof.
  intros H. eapply Forall_impl; [exact H|].
  intros e (c & r & -> & Hc) c' tls [= <-] Htls.
  unfold candidates in Hc.
  repeat (apply elem_of_cons in Hc as [->|Hc]);
    try (by apply elem_of_nil in Hc); simpl in Htls; by simplify_eq.
Qed.

(** X5: the authenticator connects to what negotiation found: after a
    negotiation that returned, the server of every call of
    [__Authentication] has the host, port and TLS configuration of the
    candidate that answered, and TLS on or off as that candidate had it. *)
Theorem authentication_uses_negotiated_transport {W} (net : Network W)
    (creds : Credentials) (secret : Credentials -> string) (st : State W) :
  truthy_int (method_port (target st)) = false ->
  let st' := (getPort net st).2 in
  (getPort net st).1 = Ok tt ->
  exists c r,
    last (new_events st st') = Some (EvBind c r)
    /\ usable r = true
    /\ Forall (fun e => forall c', event_connection e = Some c' ->
                          same_transport (conn_server c') (conn_server c))
         (new_events st' (Authentication net creds secret st').2).
Proof.
  intros Hport st'. subst st'.
  assert (Hfound : (getPort net st).1 = Ok tt ->
            exists c r,
              last (new_events st (getPort net st).2) = Some (EvBind c r)
              /\ usable r = true
              /\ same_transport (server_of (target (getPort net st).2))
                   (conn_server c)).
  { destruct (getPort net st) as [out st'] eqn:Hrun. revert Hrun.
    unfold getPort, bind at 1, gets at 1; rewrite Hport; run_negotiation.
    all: intros [= <- <-]; simpl; intros Hok; try discriminate Hok.
    all: erewrite new_events_app by (simpl; rewrite <- ?app_assoc; reflexivity).
    all: eexists _, _; split; [reflexivity|]; split; [reflexivity|].
    all: unfold same_transport, server_of, use_tls, flag_or, ldapTls_of; simpl.
    all: try done.
    all: destruct (tlsv1 (target st)) as [[]|]; done. }
  intros Hok. destruct (Hfound Hok) as (c & r & Hlast & Hus & Hsame).
  exists c, r. split; [done|]. split; [done|].
  destruct (Authentication_frame net creds secret (getPort net st).2)
    as (_ & _ & _ & Hall & _).
  eapply Forall_impl; [exact Hall|]. intros e [_ He] c' Hc'.
  by rewrite (He c' Hc').
Qed.

Lemma authentication_uses_negotiated_transport_witness :
  let st := State_init dc01
              [RBind (inl LDAPSocketOpenError); RBind (inl LDAPSocketReceiveError);
               RBind (inr success)] in
  let st' := (getPort scripted st).2 in
  (truthy_int (method_port (target st)) = false
   /\ (getPort scripted st).1 = Ok tt)
  /\ exists c r,
       last (new_events st st') = Some (EvBind c r)
       /\ usable r = true
       /\ Forall (fun e => forall c', event_connection e = Some c' ->
                             same_transport (conn_server c') (conn_server c))
            (new_events st' (Authentication scripted alice secret_of st').2).
Proof.
  intros st st'. split; [split; reflexivity|].
  exact (authentication_uses_negotiated_transport scripted alice secret_of st
           eq_refl eq_refl).
Defined.

(** X6: no connection ever validates a certificate: in everything that
    construction and account enumeration send, a TLS configuration, where
    there is one, has validation off and the cipher string
    ALL:@SECLEVEL=0. *)
Theorem tls_is_never_validated {W} (net : Network W) (creds : Credentials)
    (secret : Credentials -> string) (fuel : nat) (st : State W) :
  Forall permissive_tls
    (new_events st (LDAP_init net creds secret fuel st).2)
  /\ Forall permissive_tls
       (new_events st (getAllUsers net creds secret fuel st).2).
Proof.
  split.
  - unfold LDAP_init, bind.
    destruct (getPort_events net st) as (probes & Hw & Hprobes).
    destruct (getPort net st) as [o st1]. simpl in Hw.
    apply candidates_permissive in Hprobes.
    destruct o as [[]| | |]; simpl; try by rewrite (new_events_app _ _ _ Hw).
    destruct (checkAuthentication_frame net creds secret fuel st1)
      as (_ & evs & Hw2 & Hsrv).
    erewrite new_events_app by (rewrite Hw2, Hw, <- app_assoc; reflexivity).
    apply Forall_app. split; [done|]. by eapply served_by_permissive.
  - destruct (getAllUsers_frame net creds secret fuel st)
      as (_ & _ & evs & Hw & Hsrv).
    rewrite (new_events_app _ _ _ Hw). by eapply served_by_permissive.
Qed.

(** X7: after negotiation the target is read-only: the authenticator, a
    search, naming-context discovery, the authentication check and account
    enumeration all leave it as it was, however they end. *)
Theorem target_is_read_only_after_negotiation {W} (net : Network W)
    (creds : Credentials) (secret : Credentials -> string) (fuel : nat)
    (st : State W) :
  target (Authentication net creds secret st).2 = target st
  /\ (forall dn f sc attrs ck,
        target (search net creds secret fuel dn f sc attrs ck st).2 = target st)
  /\ target (getNamingContexts net creds secret fuel st).2 = target st
  /\ target (checkAuthentication net creds secret fuel st).2 = target st
  /\ target (getAllUsers net creds secret fuel st).2 = target st.
Proof.
  split_and!.
  - apply (Authentication_frame net creds secret st).
  - intros. apply (search_frame net creds secret fuel dn f sc attrs ck st).
  - rewrite (proj1 (getNamingContexts_frame net creds secret fuel st)).
    apply (search_frame net creds secret fuel "" "(objectClass=*)" BASE
             ["namingContexts"] None st).
  - apply (checkAuthentication_frame net creds secret fuel st).
  - apply (getAllUsers_frame net creds secret fuel st).
Qed.

(** ** The authenticator, mechanism by mechanism *)

(** X8: a Kerberos authentication that returns has made exactly three
    calls, in this order: the ticket request, with the target host also as
    KDC; the opening of the connection; the raw SASL bind, sent on the
    unbound anonymous connection marked as in progress, with mechanism
    GSS-SPNEGO, the user name, and the ticket as credentials.  The first
    response element had result code 0, and the connection comes back
    marked bound, open and no longer in progress.  [doSimpleBind] plays no
    part. *)
Theorem kerberos_exchange {W} (net : Network W) (creds : Credentials)
    (secret : Credentials -> string) (st st' : State W) (conn : Connection) :
  doKerberos creds = true ->
  Authentication net creds secret st = (Ok conn, st') ->
  let c0 := Connection_new (server_of (target st)) None None ANONYMOUS in
  let c1 := set_sasl_in_progress true (set_closed false c0) in
  exists blob first rest res,
    new_events st st'
    = [EvKerberosLogin
         (mkKerberosArgs (remote (target st)) (username creds) (password creds)
            (domain creds) (ntlmhash creds) (aesKey creds) (remote (target st)))
         (inr blob);
       EvOpen c0 None;
       EvSaslBind c1
         (mkBindRequest 3 SASL (username creds) "GSS-SPNEGO" blob)
         (inr (first :: rest, Some res))]
    /\ res_result first = 0
    /\ res_description res <> "invalidCredentials"
    /\ conn = set_bound true (set_sasl_in_progress false (set_result (Some res) c1))
    /\ logged st' = logged st.
Proof.
  intros Hk. rewrite (Authentication_kerberos_run _ _ _ _ Hk). cbv zeta.
  destruct (net_kerberosLogin net _ (world st)) as [[e|blob] w1]; [done|].
  destruct (net_open net _ w1) as [[e|] w2]; [done|].
  destruct (net_sasl net _ _ w2) as [[e|[[|first rest] result]] w3]; try done.
  destruct (res_result first =? 0) eqn:Hcode; [|done].
  unfold inspect_result. simpl. destruct result as [res|]; [|done].
  case_bool_decide; [done|]. intros [= <- <-].
  exists blob, first, rest, res.
  erewrite new_events_app by (simpl; rewrite <- ?app_assoc; reflexivity).
  split_and!; try done. by apply Z.eqb_eq.
Qed.

Lemma kerberos_exchange_witness :
  let st := State_init (dc01_on 389)
              [RKerberosLogin (inr "ticket"); ROpen None;
               RSasl (inr ([success], Some success))] in
  let c0 := Connection_new (server_of (dc01_on 389)) None None ANONYMOUS in
  let c1 := set_sasl_in_progress true (set_closed false c0) in
  let conn := set_bound true (set_sasl_in_progress false (set_result (Some success) c1)) in
  let st' := (Authentication scripted alice_kerberos secret_of st).2 in
  (doKerberos alice_kerberos = true
   /\ Authentication scripted alice_kerberos secret_of st = (Ok conn, st'))
  /\ exists blob first rest res,
       new_events st st'
       = [EvKerberosLogin
            (mkKerberosArgs "dc01.corp.local" "alice" "hunter2" "CORP" "" ""
               "dc01.corp.local")
            (inr blob);
          EvOpen c0 None;
          EvSaslBind c1 (mkBindRequest 3 SASL "alice" "GSS-SPNEGO" blob)
            (inr (first :: rest, Some res))]
       /\ res_result first = 0
       /\ res_description res <> "invalidCredentials"
       /\ conn = set_bound true (set_sasl_in_progress false (set_result (Some res) c1))
       /\ logged st' = logged st.
Proof.
  intros st c0 c1 conn st'.
  assert (Hrun : Authentication scripted alice_kerberos secret_of st = (Ok conn, st'))
    by (vm_compute; reflexivity).
  split; [split; [reflexivity|exact Hrun]|].
  exact (kerberos_exchange scripted alice_kerberos secret_of st st' conn eq_refl Hrun).
Defined.

(** X9: the authenticator is transparent to exceptions: whatever a call
    raises leaves [__Authentication] unchanged, with that call as the last
    one and nothing logged; the one exception to this is
    LDAPSocketReceiveError under NTLM. *)
Theorem authentication_exceptions_propagate {W} (net : Network W)
    (creds : Credentials) (secret : Credentials -> string) (st : State W)
    (ev : Event) (e : Exn) :
  let fin := Authentication net creds secret st in
  ev ∈ new_events st fin.2 ->
  event_exception ev = Some e ->
  doKerberos creds = true \/ doSimpleBind creds = true
    \/ e <> LDAPSocketReceiveError ->
  fin.1 = Raise e
  /\ last (new_events st fin.2) = Some ev
  /\ logged fin.2 = logged st.
Proof.
  intros fin. subst fin.
  run_authentication creds.
  all: erewrite new_events_app by (simpl; rewrite <- ?app_assoc; reflexivity).
  all: intros Hev Hexn Hmech; repeat (apply elem_of_cons in Hev as [->|Hev]);
    try (by apply elem_of_nil in Hev); simpl in Hexn; simplify_eq; try done.
  all: destruct Hmech as [?|[?|?]]; done.
Qed.

Lemma authentication_exceptions_propagate_witness :
  let st := State_init (dc01_on 389) [RKerberosLogin (inl (OtherError "KerberosError"))] in
  let ev := EvKerberosLogin
              (mkKerberosArgs "dc01.corp.local" "alice" "hunter2" "CORP" "" ""
                 "dc01.corp.local")
              (inl (OtherError "KerberosError")) in
  let fin := Authentication scripted alice_kerberos secret_of st in
  (ev ∈ new_events st fin.2
   /\ event_exception ev = Some (OtherError "KerberosError")
   /\ (doKerberos alice_kerberos = true \/ doSimpleBind alice_kerberos = true
       \/ OtherError "KerberosError" <> LDAPSocketReceiveError))
  /\ fin.1 = Raise (OtherError "KerberosError")
  /\ last (new_events st fin.2) = Some ev
  /\ logged fin.2 = logged st.
Proof.
  intros st ev fin.
  assert (Hev : ev ∈ new_events st fin.2) by (vm_compute; apply list_elem_of_here).
  split; [split_and!; [exact Hev|reflexivity|left; reflexivity]|].
  exact (authentication_exceptions_propagate scripted alice_kerberos secret_of st ev
           _ Hev eq_refl (or_introl eq_refl)).
Defined.

(** X10: under simple bind and NTLM the authenticator accepts every bind
    result that is not described as invalidCredentials, whatever its result
    code: it returns the connection, made for domain\username with the
    authentication secret, carrying that result, and logs nothing. *)
Theorem other_bind_results_are_accepted {W} (net : Network W)
    (creds : Credentials) (secret : Credentials -> string) (st : State W)
    (ev : Event) (res : LdapResult) :
  doKerberos creds = false ->
  let fin := Authentication net creds secret st in
  ev ∈ new_events st fin.2 ->
  bind_reply ev = Some res ->
  res_description res <> "invalidCredentials" ->
  fin.1 = Ok (set_result (Some res)
                (Connection_new (server_of (target st))
                   (Some (domain creds +:+ "\" +:+ username creds))
                   (Some (secret creds))
                   (if doSimpleBind creds then SIMPLE else NTLM)))
  /\ new_events st fin.2 = [ev]
  /\ logged fin.2 = logged st.
Proof.
  intros Hk fin. subst fin.
  run_authentication creds; try discriminate Hk.
  all: erewrite new_events_app by (simpl; rewrite <- ?app_assoc; reflexivity).
  all: intros Hev Hres Hdesc; repeat (apply elem_of_cons in Hev as [->|Hev]);
    try (by apply elem_of_nil in Hev); simpl in Hres; simplify_eq; done.
Qed.

Lemma other_bind_results_are_accepted_witness :
  let refused := mkLdapResult 8 "strongerAuthRequired" None in
  let st := State_init (dc01_on 389) [RBind (inr refused)] in
  let c := Connection_new (server_of (dc01_on 389)) (Some "CORP\alice")
             (Some "hunter2") NTLM in
  let ev := EvBind c (inr refused) in
  let fin := Authentication scripted alice secret_of st in
  (doKerberos alice = false
   /\ ev ∈ new_events st fin.2
   /\ bind_reply ev = Some refused
   /\ res_description refused <> "invalidCredentials")
  /\ fin.1 = Ok (set_result (Some refused) c)
  /\ new_events st fin.2 = [ev]
  /\ logged fin.2 = logged st.
Proof.
  intros refused st c ev fin.
  assert (Hev : ev ∈ new_events st fin.2) by (vm_compute; apply list_elem_of_here).
  split; [split_and!; [reflexivity|exact Hev|reflexivity|discriminate]|].
  exact (other_bind_results_are_accepted scripted alice secret_of st ev refused
           eq_refl Hev eq_refl ltac:(discriminate)).
Defined.

(** ** Paged search: failures, composition, and the absence of a bound *)

(** X11: a page that cannot be read ends the search with nothing
    returned: when [ldapConn.search] raises, the exception goes up; when the
    result has controls but not the paged-results control, the cookie
    lookup raises KeyError on that control's OID.  In both cases the request
    of this page is the last call. *)
Theorem unreadable_page_ends_search {W} (net : Network W) (creds : Credentials)
    (secret : Credentials -> string) (fuel : nat) (dn f : string) (sc : Scope)
    (attrs : list string) (ck : option string) (st st1 : State W)
    (conn : Connection) :
  Authentication net creds secret st = (Ok conn, st1) ->
  let request := page_request dn f sc attrs ck in
  let fin := search net creds secret (S fuel) dn f sc attrs ck st in
  (forall e w,
     net_search net conn request (world st1) = (inl e, w) ->
     fin = (Raise e, add_event (EvSearch conn request (inl e)) w st1))
  /\ (forall response result controls w,
        net_search net conn request (world st1) = (inr (response, result), w) ->
        res_controls result = Some controls ->
        controls <> ∅ ->
        controls !! "1.2.840.113556.1.4.319" = None ->
        fin = (Raise (KeyError "1.2.840.113556.1.4.319"),
               add_event (EvSearch conn request (inr (response, result))) w st1)).
Proof.
  intros Hauth request fin. subst request fin. unfold page_request.
  split.
  - intros e w Hs. rewrite search_S, Hauth. cbv zeta.
    change [sd_flags_control]
      with [("1.2.840.113556.1.4.801", true, sd_flags_value)].
    by rewrite Hs.
  - intros response result controls w Hs Hc Hne Hno.
    rewrite search_S, Hauth. cbv zeta.
    change [sd_flags_control]
      with [("1.2.840.113556.1.4.801", true, sd_flags_value)].
    rewrite Hs. unfold next_cookie. rewrite Hc.
    rewrite bool_decide_eq_false_2 by done.
    change paged_results_oid with "1.2.840.113556.1.4.319". by rewrite Hno.
Qed.

Lemma unreadable_page_ends_search_witness :
  let other := mkLdapResult 0 "success"
                 (Some {[ "1.2.840.113556.1.4.474" := mkControlValue None ]}) in
  let script1 := [RBind (inr success); RSearch (inl (OtherError "LDAPSocketSendError"))] in
  let script2 := [RBind (inr success); RSearch (inr (page1, other))] in
  let c0 := Connection_new (server_of (dc01_on 389)) (Some "CORP\alice")
              (Some "hunter2") SIMPLE in
  let conn := set_result (Some success) c0 in
  let request := page_request "DC=corp,DC=local" "(objectClass=user)" SUBTREE
                   ["sAMAccountName"] None in
  let st1 script := add_event (EvBind c0 (inr success)) (tail script)
                      (State_init (dc01_on 389) script) in
  let fin script := search scripted alice_simple secret_of 1 "DC=corp,DC=local"
                      "(objectClass=user)" SUBTREE ["sAMAccountName"] None
                      (State_init (dc01_on 389) script) in
  fin script1
  = (Raise (OtherError "LDAPSocketSendError"),
     add_event (EvSearch conn request (inl (OtherError "LDAPSocketSendError")))
       [] (st1 script1))
  /\ fin script2
     = (Raise (KeyError "1.2.840.113556.1.4.319"),
        add_event (EvSearch conn request (inr (page1, other))) [] (st1 script2)).
Proof.
  intros other script1 script2 c0 conn request st1 fin. split.
  - assert (Hauth : Authentication scripted alice_simple secret_of
                      (State_init (dc01_on 389) script1) = (Ok conn, st1 script1))
      by (vm_compute; reflexivity).
    exact (proj1 (unreadable_page_ends_search scripted alice_simple secret_of 0
                    "DC=corp,DC=local" "(objectClass=user)" SUBTREE
                    ["sAMAccountName"] None _ _ conn Hauth)
             (OtherError "LDAPSocketSendError") [] eq_refl).
  - assert (Hauth : Authentication scripted alice_simple secret_of
                      (State_init (dc01_on 389) script2) = (Ok conn, st1 script2))
      by (vm_compute; reflexivity).
    exact (proj2 (unreadable_page_ends_search scripted alice_simple secret_of 0
                    "DC=corp,DC=local" "(objectClass=user)" SUBTREE
                    ["sAMAccountName"] None _ _ conn Hauth)
             page1 other {[ "1.2.840.113556.1.4.474" := mkControlValue None ]} []
             eq_refl eq_refl ltac:(by apply insert_non_empty) eq_refl).
Defined.

(** X12: pages compose, and there are no partial results: after a run of
    pages that each came with a cookie, the search returns those pages'
    entries followed by what the invocation for the next page returns, and
    ends as that invocation ends when it does not return. *)
Theorem search_after_pages {W} (net : Network W) (creds : Credentials)
    (secret : Credentials -> string) (dn f : string) (sc : Scope)
    (attrs : list string) (ck ck' : option string) (st st' : State W)
    (pages : list (list Entry)) (fuel : nat) :
  pages_begun net creds secret dn f sc attrs ck st pages ck' st' ->
  let rest := search net creds secret fuel dn f sc attrs ck' st' in
  search net creds secret (length pages + fuel) dn f sc attrs ck st
  = (match rest.1 with
     | Ok entries => Ok (concat pages ++ entries)
     | o => propagate o
     end, rest.2).
Proof.
  induction 1 as [ck st
                 |ck st conn st1 response result w next pages ck' st' Hauth
                    Hsearch Hck Hne Hbegun IH]; cbv zeta.
  - simpl. by destruct (search net creds secret fuel dn f sc attrs ck st)
      as [[entries| | |] s].
  - cbn [length Nat.add].
    rewrite (search_page_more net creds secret _ dn f sc attrs ck st st1 conn
               response result w next Hauth Hsearch Hck Hne).
    cbv zeta in IH |- *. rewrite IH. simpl.
    destruct (search net creds secret fuel dn f sc attrs ck' st')
      as [[entries| | |] s]; simpl; try done.
    by rewrite app_assoc.
Qed.

Lemma search_after_pages_witness :
  let script := [RBind (inr success); RSearch (inr (page1, with_cookie (Some "C1")));
                 RBind (inr invalidCredentials)] in
  let st := State_init (dc01_on 389) script in
  let c0 := Connection_new (server_of (dc01_on 389)) (Some "CORP\alice")
              (Some "hunter2") SIMPLE in
  let conn := set_result (Some success) c0 in
  let st1 := add_event (EvBind c0 (inr success)) (tail script) st in
  let request := page_request "DC=corp,DC=local" "(objectClass=user)" SUBTREE
                   ["sAMAccountName"] None in
  let st' := add_event (EvSearch conn request (inr (page1, with_cookie (Some "C1"))))
               (drop 2 script) st1 in
  let rest := search scripted alice_simple secret_of 1 "DC=corp,DC=local"
                "(objectClass=user)" SUBTREE ["sAMAccountName"] (Some "C1") st' in
  pages_begun scripted alice_simple secret_of "DC=corp,DC=local"
    "(objectClass=user)" SUBTREE ["sAMAccountName"] None st [page1] (Some "C1") st'
  /\ rest.1 = Exit 1
  /\ search scripted alice_simple secret_of (length [page1] + 1) "DC=corp,DC=local"
       "(objectClass=user)" SUBTREE ["sAMAccountName"] None st
     = (match rest.1 with
        | Ok entries => Ok (concat [page1] ++ entries)
        | o => propagate o
        end, rest.2).
Proof.
  intros script st c0 conn st1 request st' rest.
  assert (Hbegun : pages_begun scripted alice_simple secret_of "DC=corp,DC=local"
                     "(objectClass=user)" SUBTREE ["sAMAccountName"] None st
                     [page1] (Some "C1") st').
  { eapply (begun_page scripted alice_simple secret_of _ _ _ _ None st conn st1
              page1 (with_cookie (Some "C1")) (drop 2 script) "C1").
    - vm_compute; reflexivity.
    - vm_compute; reflexivity.
    - vm_compute; reflexivity.
    - discriminate.
    - apply begun_none. }
  split; [exact Hbegun|]. split; [vm_compute; reflexivity|].
  exact (search_after_pages scripted alice_simple secret_of "DC=corp,DC=local"
           "(objectClass=user)" SUBTREE ["sAMAccountName"] None (Some "C1") st st'
           [page1] 1 Hbegun).
Defined.

(** ** Naming-context discovery and construction *)

Section Discovery.
Context {W : Type} (net : Network W).
Variable credentials : Credentials.
Variable secret : Credentials -> string.

(** [getNamingContexts] after its search, by the shape of the response. *)
Lemma getNamingContexts_ok (fuel : nat) (st : State W) :
  (getNamingContexts net credentials secret fuel st).1 = Ok tt ->
  exists v0 v1 v2 v3 v4 more,
    namingContexts (getNamingContexts net credentials secret fuel st).2
    = Some (v0 :: v1 :: v2 :: v3 :: v4 :: more)
    /\ context_fields (getNamingContexts net credentials secret fuel st).2
       = [Some v0; Some v1; Some v2; Some v3; Some v4].
Proof.
  unfold getNamingContexts, bind, list_get, dict_get, modify, ret, raise.
  destruct (search net credentials secret fuel "" "(objectClass=*)" BASE
              ["namingContexts"] None st) as [[response| | |] st1]; try done.
  destruct response as [|first rest]; simpl; [done|].
  destruct (entry_attributes first) as [attributes|]; [|done].
  destruct (attributes !! "namingContexts") as [values|]; [|done]. simpl.
  do 5 (destruct values as [|? values]; [done|]; simpl).
  intros _. by eexists _, _, _, _, _, _.
Qed.

(** [__checkAuthentication] returns only after a complete discovery. *)
Lemma checkAuthentication_ok (fuel : nat) (st : State W) :
  (checkAuthentication net credentials secret fuel st).1 = Ok tt ->
  exists v0 v1 v2 v3 v4 more,
    namingContexts (checkAuthentication net credentials secret fuel st).2
    = Some (v0 :: v1 :: v2 :: v3 :: v4 :: more)
    /\ context_fields (checkAuthentication net credentials secret fuel st).2
       = [Some v0; Some v1; Some v2; Some v3; Some v4]
    /\ last (logged (checkAuthentication net credentials secret fuel st).2)
       = Some (DEBUG, "Authentication success !").
Proof.
  unfold checkAuthentication, bind, gets, ret, raise, logger_debug, logger_error,
    modify, try_catch, exit.
  destruct (method_port (target st)) as [p|]; simpl; [|done].
  destruct (Authentication net credentials secret _) as [[conn| | |] st1];
    simpl; try done.
  pose proof (getNamingContexts_ok fuel st1) as HN.
  destruct (getNamingContexts net credentials secret fuel st1) as [[[]|e| |] st2];
    simpl in *; try done.
  - intros _. destruct (HN eq_refl) as (v0 & v1 & v2 & v3 & v4 & more & Hn & Hc).
    exists v0, v1, v2, v3, v4, more. split_and!; try done.
    by rewrite last_snoc.
  - by destruct e.
Qed.
End Discovery.

Lemma getPort_ok_port {W} (net : Network W) (st : State W) :
  (getPort net st).1 = Ok tt ->
  truthy_int (method_port (target (getPort net st).2)) = true.
Proof.
  destruct (truthy_int (method_port (target st))) eqn:Hport.
  { unfold getPort, bind, gets, ret. by rewrite Hport. }
  destruct (getPort net st) as [out st'] eqn:Hrun. revert Hrun.
  unfold getPort, bind at 1, gets at 1; rewrite Hport; run_negotiation.
  all: intros [= <- <-]; simpl; intros Hok; done.
Qed.

(** X14: a first response element without the attribute is not reported
    as invalid credentials: when the element has no attributes at all, or
    no namingContexts among them, the authentication check ends in the
    KeyError of the lookup, with nothing logged about it and nothing
    assigned. *)
Theorem discovery_missing_key_propagates {W} (net : Network W)
    (creds : Credentials) (secret : Credentials -> string) (fuel : nat)
    (st0 st st1 : State W) (p : Z) (conn : Connection) (first : Entry)
    (rest : list Entry) :
  method_port (target st0) = Some p ->
  Authentication net creds secret
    (add_log DEBUG
       ("Trying to connect to " +:+ remote (target st0) +:+ ":" +:+ pretty p) st0)
    = (Ok conn, st) ->
  search net creds secret fuel "" "(objectClass=*)" BASE ["namingContexts"] None st
    = (Ok (first :: rest), st1) ->
  let fin := checkAuthentication net creds secret fuel st0 in
  (entry_attributes first = None ->
   fin = (Raise (KeyError "attributes"), st1))
  /\ (forall attributes,
        entry_attributes first = Some attributes ->
        attributes !! "namingContexts" = None ->
        fin = (Raise (KeyError "namingContexts"), st1)).
Proof.
  intros Hp Hauth Hsearch fin. subst fin.
  unfold checkAuthentication, getNamingContexts, bind, gets, ret, raise,
    logger_debug, logger_error, modify, try_catch, exit, list_get, dict_get.
  rewrite Hp. simpl. rewrite Hauth, Hsearch. simpl. split.
  - by intros ->.
  - intros attributes -> Hno. by rewrite Hno.
Qed.

Lemma discovery_missing_key_propagates_witness :
  let st0 := State_init (dc01_on 389)
               [RBind (inr success); RBind (inr success);
                RSearch (inr ([searchResRef; rootDSE five_contexts], success))] in
  let st := (Authentication scripted alice_simple secret_of
               (add_log DEBUG "Trying to connect to dc01.corp.local:389" st0)).2 in
  let srch := search scripted alice_simple secret_of 1 "" "(objectClass=*)" BASE
                ["namingContexts"] None st in
  (method_port (target st0) = Some 389
   /\ srch = (Ok [searchResRef; rootDSE five_contexts], srch.2)
   /\ entry_attributes searchResRef = None)
  /\ checkAuthentication scripted alice_simple secret_of 1 st0
     = (Raise (KeyError "attributes"), srch.2).
Proof.
  intros st0 st srch.
  assert (Hsearch : srch = (Ok [searchResRef; rootDSE five_contexts], srch.2))
    by (vm_compute; reflexivity).
  split; [split_and!; [reflexivity|exact Hsearch|reflexivity]|].
  exact (proj1 (discovery_missing_key_propagates scripted alice_simple secret_of 1
                  st0 st srch.2 389 _ searchResRef [rootDSE five_contexts]
                  eq_refl eq_refl Hsearch) eq_refl).
Defined.

(** X15: a short discovery leaves the object half assigned:
    [getNamingContexts] on fewer than five values has stored the list and
    the contexts before the missing one when it raises IndexError; the
    later ones are as they were. *)
Theorem short_discovery_assigns_a_prefix {W} (net : Network W)
    (creds : Credentials) (secret : Credentials -> string) (fuel : nat)
    (st st1 : State W) (first : Entry) (rest : list Entry)
    (attributes : gmap string (list string)) (values : list string) :
  search net creds secret fuel "" "(objectClass=*)" BASE ["namingContexts"] None st
    = (Ok (first :: rest), st1) ->
  entry_attributes first = Some attributes ->
  attributes !! "namingContexts" = Some values ->
  (length values < 5)%nat ->
  let fin := getNamingContexts net creds secret fuel st in
  fin.1 = Raise IndexError
  /\ namingContexts fin.2 = Some values
  /\ context_fields fin.2
     = (Some <$> values) ++ drop (length values) (context_fields st1).
Proof.
  intros Hsearch Hattr Hvalues Hlen fin. subst fin.
  unfold getNamingContexts, bind, list_get, dict_get, modify, ret, raise.
  rewrite Hsearch. simpl. rewrite Hattr, Hvalues. simpl.
  do 5 (destruct values as [|? values]; [done|]; simpl in * ). lia.
Qed.

Lemma short_discovery_assigns_a_prefix_witness :
  let st := State_init (dc01_on 389)
              [RBind (inr success);
               RSearch (inr ([rootDSE three_contexts], success))] in
  let srch := search scripted alice_simple secret_of 1 "" "(objectClass=*)" BASE
                ["namingContexts"] None st in
  let fin := getNamingContexts scripted alice_simple secret_of 1 st in
  (srch = (Ok [rootDSE three_contexts], srch.2)
   /\ (length three_contexts < 5)%nat)
  /\ fin.1 = Raise IndexError
  /\ namingContexts fin.2 = Some three_contexts
  /\ context_fields fin.2
     = (Some <$> three_contexts) ++ drop (length three_contexts) (context_fields srch.2).
Proof.
  intros st srch fin.
  assert (Hsearch : srch = (Ok [rootDSE three_contexts], srch.2))
    by (vm_compute; reflexivity).
  assert (Hlen : (length three_contexts < 5)%nat) by (simpl; lia).
  split; [split; assumption|].
  exact (short_discovery_assigns_a_prefix scripted alice_simple secret_of 1 st srch.2
           (rootDSE three_contexts) [] {[ "namingContexts" := three_contexts ]}
           three_contexts Hsearch eq_refl eq_refl Hlen).
Defined.

(** X16: an object whose construction returned is complete: its port is
    set, its five naming contexts are the first five values found, the last
    thing logged is the success of the authentication, and account
    enumeration on it searches under the first of those values. *)
Theorem constructed_object_is_complete {W} (net : Network W)
    (creds : Credentials) (secret : Credentials -> string) (fuel : nat)
    (st st' : State W) :
  LDAP_init net creds secret fuel st = (Ok tt, st') ->
  truthy_int (method_port (target st')) = true
  /\ last (logged st') = Some (DEBUG, "Authentication success !")
  /\ exists v0 v1 v2 v3 v4 more,
       namingContexts st' = Some (v0 :: v1 :: v2 :: v3 :: v4 :: more)
       /\ context_fields st' = [Some v0; Some v1; Some v2; Some v3; Some v4]
       /\ forall fuel',
            getAllUsers net creds secret fuel' st'
            = bind (search net creds secret fuel' v0
                      "(|(sAMAccountType=805306368)(sAMAccountType=805306369))"
                      SUBTREE ["sAMAccountName"] None)
                (getSAMAccountName (W:=W)) st'.
Proof.
  unfold LDAP_init. unfold bind at 1.
  pose proof (getPort_ok_port net st) as Hport.
  destruct (getPort net st) as [[[]| | |] st1]; try done. simpl in Hport.
  pose proof (checkAuthentication_ok net creds secret fuel st1) as HC.
  pose proof (checkAuthentication_frame net creds secret fuel st1) as (Ht & _).
  destruct (checkAuthentication net creds secret fuel st1) as [o st2].
  simpl in *. intros [= -> ->].
  destruct (HC eq_refl) as (v0 & v1 & v2 & v3 & v4 & more & Hn & Hc & Hlast).
  split; [by rewrite Ht, Hport|]. split; [done|].
  exists v0, v1, v2, v3, v4, more. split_and!; try done.
  intros fuel'. unfold getAllUsers, bind at 1 2, gets, ret.
  injection Hc as -> _ _ _ _. done.
Qed.

Lemma constructed_object_is_complete_witness :
  let st := State_init dc01
              [RBind (inr success); RBind (inr success); RBind (inr success);
               RSearch (inr ([rootDSE five_contexts], success))] in
  let st' := (LDAP_init scripted alice_simple secret_of 1 st).2 in
  LDAP_init scripted alice_simple secret_of 1 st = (Ok tt, st')
  /\ truthy_int (method_port (target st')) = true
  /\ last (logged st') = Some (DEBUG, "Authentication success !")
  /\ exists v0 v1 v2 v3 v4 more,
       namingContexts st' = Some (v0 :: v1 :: v2 :: v3 :: v4 :: more)
       /\ context_fields st' = [Some v0; Some v1; Some v2; Some v3; Some v4]
       /\ forall fuel',
            getAllUsers scripted alice_simple secret_of fuel' st'
            = bind (search scripted alice_simple secret_of fuel' v0
                      "(|(sAMAccountType=805306368)(sAMAccountType=805306369))"
                      SUBTREE ["sAMAccountName"] None)
                (getSAMAccountName (W:=list Reply)) st'.
Proof.
  intros st st'.
  assert (Hrun : LDAP_init scripted alice_simple secret_of 1 st = (Ok tt, st'))
    by (vm_compute; reflexivity).
  split; [exact Hrun|].
  exact (constructed_object_is_complete scripted alice_simple secret_of 1 st st' Hrun).
Defined.


(** The calls of a search invocation begin with those of its
    authentication. *)
Lemma search_starts_with_authentication {W} (net : Network W)
    (creds : Credentials) (secret : Credentials -> string) (fuel : nat)
    (dn f : string) (sc : Scope) (attrs : list string) (ck : option string)
    (st : State W) :
  exists later,
    wire (search net creds secret (S fuel) dn f sc attrs ck st).2
    = wire (Authentication net creds secret st).2 ++ later.
Proof.
  rewrite search_S.
  destruct (Authentication net creds secret st) as [[conn| | |] st1];
    simpl; try (exists []; by rewrite app_nil_r).
  destruct (net_search net conn _ (world st1)) as [[e|[response result]] w];
    simpl; [eexists [_]; reflexivity|].
  destruct (next_cookie result) as [e|ck']; [eexists [_]; reflexivity|].
  destruct (truthy_str ck'); [|eexists [_]; reflexivity].
  match goal with
  | |- context [search net creds secret fuel dn f sc attrs ck' ?s] =>
      destruct (search_frame net creds secret fuel dn f sc attrs ck' s)
        as (_ & _ & more & Hw3 & _);
      destruct (search net creds secret fuel dn f sc attrs ck' s) as [o3 st3]
  end.
  simpl in Hw3. eexists (_ :: more).
  destruct o3; simpl; rewrite Hw3, <- app_assoc; reflexivity.
Qed.

(** X17: construction authenticates twice before it reads anything: the
    calls of the authentication check are those of one authentication of
    its own followed by those of the search of the discovery, which starts
    with an authentication again. *)
Theorem construction_authenticates_twice {W} (net : Network W)
    (creds : Credentials) (secret : Credentials -> string) (fuel : nat)
    (st st1 : State W) (p : Z) (conn : Connection) :
  method_port (target st) = Some p ->
  Authentication net creds secret
    (add_log DEBUG
       ("Trying to connect to " +:+ remote (target st) +:+ ":" +:+ pretty p) st)
    = (Ok conn, st1) ->
  let fin := checkAuthentication net creds secret (S fuel) st in
  let second := Authentication net creds secret st1 in
  exists later,
    new_events st fin.2
    = new_events st st1 ++ new_events st1 second.2 ++ later
    /\ authenticated_by (new_events st st1) conn
    /\ new_events st1 second.2 <> []
    /\ Forall (fun e => is_search e = false)
         (new_events st st1 ++ new_events st1 second.2).
Proof.
  intros Hp Hauth fin second. subst fin second.
  pose proof (Authentication_frame net creds secret
                (add_log DEBUG
                   ("Trying to connect to " +:+ remote (target st) +:+ ":" +:+ pretty p)
                   st)) as HA1.
  pose proof (Authentication_binds_fresh net creds secret _ _ _ Hauth) as HB.
  cbv zeta in HA1. rewrite Hauth in HA1.
  destruct HA1 as (_ & _ & (auth & Hw & _) & Hns1 & _).
  unfold new_events in HB, Hns1. simpl in *.
  rewrite Hw, drop_app_length in HB, Hns1.
  rewrite (new_events_app st st1 auth Hw).
  destruct (Authentication_frame net creds secret st1)
    as (_ & _ & (auth2 & Hw2 & Hne2) & Hns2 & _).
  rewrite (new_events_app _ _ _ Hw2) in Hns2 |- *.
  assert (Hwire : exists later,
            wire (checkAuthentication net creds secret (S fuel) st).2
            = wire st ++ auth ++ auth2 ++ later).
  { unfold checkAuthentication, bind, gets, ret, raise, logger_debug, logger_error,
      modify, try_catch, exit.
    rewrite Hp. simpl. rewrite Hauth.
    destruct (getNamingContexts_frame net creds secret (S fuel) st1) as (_ & Hgw & _).
    destruct (search_starts_with_authentication net creds secret fuel ""
                "(objectClass=*)" BASE ["namingContexts"] None st1) as [later Hsw].
    rewrite Hw2 in Hsw.
    exists later.
    destruct (getNamingContexts net creds secret (S fuel) st1) as [[[]|e| |] st2];
      simpl in *; try (by rewrite Hgw, Hsw, Hw, <- !app_assoc).
    destruct e; simpl; by rewrite Hgw, Hsw, Hw, <- !app_assoc. }
  destruct Hwire as [later Hwire]. exists later.
  rewrite (new_events_app _ _ _ Hwire). split_and!; try done.
  apply Forall_app. split; (eapply Forall_impl; [eassumption|]; by intros ? [? ?]).
Qed.

Lemma construction_authenticates_twice_witness :
  let st := State_init (dc01_on 389)
              [RBind (inr success); RBind (inr success);
               RSearch (inr ([rootDSE five_contexts], success))] in
  let c0 := Connection_new (server_of (dc01_on 389)) (Some "CORP\alice")
              (Some "hunter2") SIMPLE in
  let conn := set_result (Some success) c0 in
  let st1 := (Authentication scripted alice_simple secret_of
                (add_log DEBUG "Trying to connect to dc01.corp.local:389" st)).2 in
  let fin := checkAuthentication scripted alice_simple secret_of 1 st in
  let second := Authentication scripted alice_simple secret_of st1 in
  (method_port (target st) = Some 389
   /\ Authentication scripted alice_simple secret_of
        (add_log DEBUG "Trying to connect to dc01.corp.local:389" st)
      = (Ok conn, st1))
  /\ exists later,
       new_events st fin.2
       = new_events st st1 ++ new_events st1 second.2 ++ later
       /\ authenticated_by (new_events st st1) conn
       /\ new_events st1 second.2 <> []
       /\ Forall (fun e => is_search e = false)
            (new_events st st1 ++ new_events st1 second.2).
Proof.
  intros st c0 conn st1 fin second.
  assert (Hauth : Authentication scripted alice_simple secret_of
                    (add_log DEBUG "Trying to connect to dc01.corp.local:389" st)
                  = (Ok conn, st1))
    by (vm_compute; reflexivity).
  split; [split; [reflexivity|exact Hauth]|].
  exact (construction_authenticates_twice scripted alice_simple secret_of 0 st st1
           389 conn eq_refl Hauth).
Defined.

(** ** Account names *)

Section AccountNames.
Context {W : Type}.

(** The loop never touches the state. *)
Lemma getSAMAccountName_loop_state (l : list Entry) (acc : list string)
    (s : State W) :
  (getSAMAccountName_loop l acc s).2 = s.
Proof.
  revert acc. induction l as [|e l IH]; intros acc; [done|].
  cbn [getSAMAccountName_loop]. unfold bind, dict_get, list_get, decode, ret, raise.
  case_bool_decide; [apply IH|].
  destruct (entry_raw_attributes e) as [raw|]; [|done].
  destruct (raw !! "sAMAccountName") as [[|v vs]|]; try done. simpl.
  destruct (utf8_wf (bytes_of v)); [apply IH|done].
Qed.

(** The names found are appended to the list built so far. *)
Lemma getSAMAccountName_loop_acc (l : list Entry) (acc : list string)
    (s : State W) :
  getSAMAccountName_loop l acc s =
    match getSAMAccountName_loop l [] s with
    | (Ok names, s') => (Ok (acc ++ names), s')
    | r => r
    end.
Proof.
  revert acc. induction l as [|e l IH]; intros acc.
  { simpl. unfold ret. by rewrite app_nil_r. }
  cbn [getSAMAccountName_loop]. unfold bind, dict_get, list_get, decode, ret, raise.
  case_bool_decide; [apply IH|].
  destruct (entry_raw_attributes e) as [raw|]; [|done].
  destruct (raw !! "sAMAccountName") as [[|v vs]|]; try done. simpl.
  destruct (utf8_wf (bytes_of v)); [|done].
  rewrite (IH (acc ++ [v])), (IH [v]).
  destruct (getSAMAccountName_loop l [] s) as [[names| | |] s']; try done.
  by rewrite <- app_assoc.
Qed.

(** The loop over two lists is the loop over the first, then over the
    second with what the first found. *)
Lemma getSAMAccountName_loop_app (l k : list Entry) (acc : list string)
    (s : State W) :
  getSAMAccountName_loop (l ++ k) acc s =
    match getSAMAccountName_loop l acc s with
    | (Ok names, s') => getSAMAccountName_loop k names s'
    | r => r
    end.
Proof.
  revert acc. induction l as [|e l IH]; intros acc; [done|].
  cbn [app getSAMAccountName_loop]. unfold bind, dict_get, list_get, decode, ret, raise.
  case_bool_decide; [apply IH|].
  destruct (entry_raw_attributes e) as [raw|]; [|done].
  destruct (raw !! "sAMAccountName") as [[|v vs]|]; try done. simpl.
  destruct (utf8_wf (bytes_of v)); [apply IH|done].
Qed.
End AccountNames.

(** X18: the account names of pages are the pages' account names: on
    two responses one after the other the result is what the first gives
    followed by what the second gives, and the first failure decides the
    exception. *)
Theorem account_names_of_pages {W} (l k : list Entry) (s : State W) :
  getSAMAccountName (l ++ k) s =
    match getSAMAccountName l s with
    | (Ok names, _) =>
        match getSAMAccountName k s with
        | (Ok more, _) => (Ok (names ++ more), s)
        | r => r
        end
    | r => r
    end.
Proof.
  unfold getSAMAccountName. rewrite getSAMAccountName_loop_app.
  pose proof (getSAMAccountName_loop_state l [] s) as Hl.
  pose proof (getSAMAccountName_loop_state k [] s) as Hk.
  destruct (getSAMAccountName_loop l [] s) as [[names| | |] s1]; try done.
  simpl in Hl. subst s1. rewrite getSAMAccountName_loop_acc.
  destruct (getSAMAccountName_loop k [] s) as [[more| | |] s2]; simpl in *; by subst.
Qed.

(** X19: elements that are not of type searchResEntry do not count,
    whatever they carry: the result on a response is the result on its
    searchResEntry elements alone. *)
Theorem account_names_ignore_other_elements {W} (response : list Entry)
    (s : State W) :
  getSAMAccountName response s
  = getSAMAccountName
      (filter (fun e => entry_type e = "searchResEntry") response) s.
Proof.
  unfold getSAMAccountName. generalize (@nil string) as acc.
  induction response as [|e l IH]; intros acc; [done|].
  rewrite filter_cons. cbn [getSAMAccountName_loop].
  destruct (decide (entry_type e = "searchResEntry")) as [He|He].
  - cbn [getSAMAccountName_loop].
    unfold bind, dict_get, list_get, decode, ret, raise.
    rewrite bool_decide_eq_false_2 by (by intros Hn; apply Hn).
    destruct (entry_raw_attributes e) as [raw|]; [|done].
    destruct (raw !! "sAMAccountName") as [[|v vs]|]; try done. simpl.
    destruct (utf8_wf (bytes_of v)); [apply IH|done].
  - rewrite bool_decide_eq_true_2 by done. apply IH.
Qed.

(** X20: the first searchResEntry element that cannot give a name decides
    the result, and the names found before it are lost: without raw
    attributes, or without sAMAccountName among them, it is the KeyError of
    the lookup; with no value, IndexError; with a first value that is not
    UTF-8, UnicodeDecodeError. *)
Theorem first_unnamed_account_fails {W} (before after : list Entry)
    (e : Entry) (s : State W) :
  (forall e', e' ∈ before -> entry_type e' = "searchResEntry" ->
              exists name, names_account e' name) ->
  entry_type e = "searchResEntry" ->
  let fin := getSAMAccountName (before ++ e :: after) s in
  (entry_raw_attributes e = None ->
   fin = (Raise (KeyError "raw_attributes"), s))
  /\ (forall raw,
        entry_raw_attributes e = Some raw ->
        (raw !! "sAMAccountName" = None ->
         fin = (Raise (KeyError "sAMAccountName"), s))
        /\ (raw !! "sAMAccountName" = Some [] ->
            fin = (Raise IndexError, s))
        /\ (forall v vs,
              raw !! "sAMAccountName" = Some (v :: vs) ->
              utf8_wf (bytes_of v) = false ->
              fin = (Raise UnicodeDecodeError, s))).
Proof.
  intros Hbefore He fin. subst fin. unfold getSAMAccountName.
  rewrite getSAMAccountName_loop_app.
  destruct (getSAMAccountName_loop_names before [] s Hbefore) as (names & -> & _).
  cbn [getSAMAccountName_loop]. unfold bind, dict_get, list_get, decode, ret, raise.
  rewrite bool_decide_eq_false_2 by (by intros Hn; apply Hn).
  split; [by intros ->|]. intros raw ->. split_and!.
  - by intros ->.
  - by intros ->.
  - intros v vs -> Hwf. simpl. by rewrite Hwf.
Qed.

Lemma first_unnamed_account_fails_witness :
  let nameless := mkEntry "searchResEntry" None
                    (Some {[ "sAMAccountName" := [] ]}) in
  let s := State_init dc01 ([] : list Reply) in
  ((forall e', e' ∈ [account "alice"; searchResRef] ->
               entry_type e' = "searchResEntry" ->
               exists name, names_account e' name)
   /\ entry_type nameless = "searchResEntry"
   /\ entry_raw_attributes nameless = Some {[ "sAMAccountName" := [] ]})
  /\ getSAMAccountName ([account "alice"; searchResRef] ++ nameless :: [account "bob"]) s
     = (Raise IndexError, s).
Proof.
  intros nameless s.
  assert (Hbefore : forall e', e' ∈ [account "alice"; searchResRef] ->
                      entry_type e' = "searchResEntry" ->
                      exists name, names_account e' name).
  { intros e' He' Hty.
    repeat (apply elem_of_cons in He' as [->|He']);
      [ exists "alice", {[ "sAMAccountName" := ["alice"] ]}, []; by repeat split
      | discriminate Hty
      | by apply elem_of_nil in He' ]. }
  split; [split_and!; [exact Hbefore|reflexivity|reflexivity]|].
  exact (proj1 (proj2 (proj2 (first_unnamed_account_fails
                                [account "alice"; searchResRef] [account "bob"]
                                nameless s Hbefore eq_refl)
                         {[ "sAMAccountName" := [] ]} eq_refl))
           eq_refl).
Defined.

(** X21: account enumeration over any number of pages: when the server
    answers the search under the default naming context with pages, and
    every searchResEntry element of every page names an account, the result
    is those names, page after page, in the order received. *)
Theorem accounts_of_all_pages {W} (net : Network W) (creds : Credentials)
    (secret : Credentials -> string) (st st' : State W) (base : string)
    (pages : list (list Entry)) (fuel : nat) :
  defaultNamingContext st = Some base ->
  pages_served net creds secret base
    "(|(sAMAccountType=805306368)(sAMAccountType=805306369))" SUBTREE
    ["sAMAccountName"] None st pages st' ->
  (forall e, e ∈ concat pages -> entry_type e = "searchResEntry" ->
             exists name, names_account e name) ->
  (length pages <= fuel)%nat ->
  exists names,
    getAllUsers net creds secret fuel st = (Ok names, st')
    /\ Forall2 names_account
         (filter (fun e => entry_type e = "searchResEntry") (concat pages)) names.
Proof.
  intros Hbase Hserved Hall Hfuel.
  destruct (getSAMAccountName_loop_names (concat pages) [] st' Hall)
    as (names & Hrun & Hnames).
  exists names. split; [|exact Hnames].
  unfold getAllUsers, bind, gets, ret. rewrite Hbase.
  change users_filter
    with "(|(sAMAccountType=805306368)(sAMAccountType=805306369))".
  rewrite (search_concat_pages net creds secret _ _ _ _ _ _ _ _ Hserved fuel Hfuel).
  exact Hrun.
Qed.

Lemma accounts_of_all_pages_witness :
  let st := set_defaultNamingContext "DC=corp,DC=local"
              (State_init (dc01_on 389) two_pages) in
  let st' := (getAllUsers scripted alice_simple secret_of 2 st).2 in
  (defaultNamingContext st = Some "DC=corp,DC=local"
   /\ pages_served scripted alice_simple secret_of "DC=corp,DC=local"
        "(|(sAMAccountType=805306368)(sAMAccountType=805306369))" SUBTREE
        ["sAMAccountName"] None st [page1; page2] st'
   /\ (length [page1; page2] <= 2)%nat)
  /\ exists names,
       getAllUsers scripted alice_simple secret_of 2 st = (Ok names, st')
       /\ Forall2 names_account
            (filter (fun e => entry_type e = "searchResEntry")
               (concat [page1; page2])) names.
Proof.
  intros st st'.
  pose (c0 := Connection_new (server_of (dc01_on 389)) (Some "CORP\alice")
                (Some "hunter2") SIMPLE).
  pose (conn := set_result (Some success) c0).
  pose (request ck := page_request "DC=corp,DC=local"
                        "(|(sAMAccountType=805306368)(sAMAccountType=805306369))"
                        SUBTREE ["sAMAccountName"] ck).
  pose (st1 := add_event (EvBind c0 (inr success)) (drop 1 two_pages) st).
  pose (st2 := add_event (EvSearch conn (request None)
                            (inr (page1, with_cookie (Some "C1"))))
                 (drop 2 two_pages) st1).
  pose (st3 := add_event (EvBind c0 (inr success)) (drop 3 two_pages) st2).
  assert (Hserved : pages_served scripted alice_simple secret_of "DC=corp,DC=local"
                      "(|(sAMAccountType=805306368)(sAMAccountType=805306369))"
                      SUBTREE ["sAMAccountName"] None st [page1; page2] st').
  { eapply (served_more scripted alice_simple secret_of _ _ _ _ None st conn st1
              page1 (with_cookie (Some "C1")) (drop 2 two_pages) "C1").
    - vm_compute; reflexivity.
    - vm_compute; reflexivity.
    - vm_compute; reflexivity.
    - discriminate.
    - replace st' with
        (add_event (EvSearch conn (request (Some "C1")) (inr (page2, success)))
           [] st3) by (vm_compute; reflexivity).
      eapply (served_last scripted alice_simple secret_of _ _ _ _ (Some "C1") st2
                conn st3 page2 success []).
      + vm_compute; reflexivity.
      + vm_compute; reflexivity.
      + left. vm_compute; reflexivity. }
  assert (Hall : forall e, e ∈ concat [page1; page2] ->
                   entry_type e = "searchResEntry" ->
                   exists name, names_account e name).
  { intros e He _. simpl in He. unfold page1, page2 in He. simpl in He.
    repeat (apply elem_of_cons in He as [->|He]);
      try (by apply elem_of_nil in He);
      eexists _, _, []; split_and!; reflexivity. }
  assert (Hfuel : (length [page1; page2] <= 2)%nat) by (simpl; lia).
  split; [split_and!; [reflexivity|exact Hserved|exact Hfuel]|].
  exact (accounts_of_all_pages scripted alice_simple secret_of st st'
           "DC=corp,DC=local" [page1; page2] 2 eq_refl Hserved Hall Hfuel).
Defined.

Lemma candidates_anonymous (host : string) (evs : list Event) :
  Forall (fun e => exists c r, e = EvBind c r /\ c ∈ candidates host) evs ->
  Forall anonymous_bind evs.
Proof.
  intros H. eapply Forall_impl; [exact H|].
  intros e (c & r & -> & Hc). exists c, r. unfold candidates in Hc.
  repeat (apply elem_of_cons in Hc as [->|Hc]);
    try (by apply elem_of_nil in Hc); done.
Qed.

(** X22: the credentials wait for a transport: when negotiation does not
    return, construction ends as negotiation did, and everything that was
    sent is an anonymous bind. *)
Theorem credentials_wait_for_transport {W} (net : Network W)
    (creds : Credentials) (secret : Credentials -> string) (fuel : nat)
    (st : State W) :
  (getPort net st).1 <> Ok tt ->
  LDAP_init net creds secret fuel st
  = (propagate (getPort net st).1, (getPort net st).2)
  /\ Forall anonymous_bind
       (new_events st (LDAP_init net creds secret fuel st).2).
Proof.
  intros Hfail.
  destruct (getPort_events net st) as (evs & Hw & Hevs).
  unfold LDAP_init, bind.
  destruct (getPort net st) as [[[]| | |] st1]; simpl in *; try done.
  all: rewrite (new_events_app _ _ _ Hw); split; [done|].
  all: by eapply candidates_anonymous.
Qed.

Lemma credentials_wait_for_transport_witness :
  let st := State_init dc01
              [RBind (inl LDAPSocketOpenError); RBind (inl LDAPSocketOpenError);
               RBind (inl LDAPSocketOpenError); RBind (inr success)] in
  (getPort scripted st).1 <> Ok tt
  /\ LDAP_init scripted alice secret_of 1 st
     = (propagate (getPort scripted st).1, (getPort scripted st).2)
  /\ Forall anonymous_bind
       (new_events st (LDAP_init scripted alice secret_of 1 st).2).
Proof.
  intros st.
  assert (Hfail : (getPort scripted st).1 <> Ok tt) by (vm_compute; discriminate).
  split; [exact Hfail|].
  exact (credentials_wait_for_transport scripted alice secret_of 1 st Hfail).
Defined.
